(** * SUUMO scraper: extraction, crawl control and new-listing detection

    A shallow embedding of the listing pipeline of the repository:
    - [PropertyParser] (src/scraper/property_parser.py),
    - [SuumoScraper.scrape_properties] and [export_to_sheets]
      (suumo_scraper.py),
    - [SheetsManager] (src/sheets/sheets_manager.py),
    - [NotificationService.send_notification] (notification_service.py).

    Python strings are byte strings (UTF-8); the characters the code
    splits or tests on ('?', '/', ',') are ASCII, so splitting bytes and
    splitting code points agree, and the white space [str.strip] removes
    is given by the UTF-8 bytes of each character. *)

From Stdlib Require Import List String Ascii Bool Arith ZArith Lia.
From Stdlib Require Import DecimalString DecimalNat.
Import ListNotations.

Local Open Scope string_scope.
Local Open Scope list_scope.

(* ================================================================== *)
(** * Python string primitives used by the code *)

Module PyStr.

(** [s.split(sep)] for a one-character separator: never empty, and
    [''.split(sep) = ['']]. *)
Fixpoint split (sep : ascii) (s : string) : list string :=
  match s with
  | EmptyString => [EmptyString]
  | String c rest =>
      if Ascii.eqb c sep then EmptyString :: split sep rest
      else match split sep rest with
           | [] => [String c EmptyString]
           | w :: ws => String c w :: ws
           end
  end.

(** [sep.join(l)]. *)
Fixpoint join (sep : string) (l : list string) : string :=
  match l with
  | [] => EmptyString
  | [w] => w
  | w :: ws => w ++ sep ++ join sep ws
  end.

(** [s.split(sep)[0]]: the list is never empty, so the index is safe. *)
Definition split_first (sep : ascii) (s : string) : string :=
  match split sep s with
  | [] => EmptyString
  | w :: _ => w
  end.

(** [s.startswith(c)] for a one-character prefix. *)
Definition startswith (c : ascii) (s : string) : bool :=
  match s with
  | EmptyString => false
  | String d _ => Ascii.eqb d c
  end.

(** The string whose bytes are the given numbers. *)
Definition bytes (l : list nat) : string :=
  fold_right (fun n s => String (ascii_of_nat n) s) EmptyString l.

(** The characters [str.strip()] removes (those of [str.isspace]), each
    as the bytes of its UTF-8 encoding: U+0009..U+000D, U+001C..U+001F,
    U+0020, U+0085, U+00A0, U+1680, U+2000..U+200A, U+2028, U+2029,
    U+202F, U+205F and U+3000. *)
Definition whitespace : list string :=
  map bytes
    [[9]; [10]; [11]; [12]; [13]; [28]; [29]; [30]; [31]; [32];
     [194; 133]; [194; 160]; [225; 154; 128];
     [226; 128; 128]; [226; 128; 129]; [226; 128; 130]; [226; 128; 131];
     [226; 128; 132]; [226; 128; 133]; [226; 128; 134]; [226; 128; 135];
     [226; 128; 136]; [226; 128; 137]; [226; 128; 138];
     [226; 128; 168]; [226; 128; 169]; [226; 128; 175];
     [226; 129; 159]; [227; 128; 128]].

(** [s] without the prefix [w], when it starts with [w]. *)
Fixpoint drop_prefix (w s : string) : option string :=
  match w with
  | EmptyString => Some s
  | String a w' =>
      match s with
      | EmptyString => None
      | String b s' => if Ascii.eqb a b then drop_prefix w' s' else None
      end
  end.

(** [s] without its first character, when that is one of [chars]. *)
Fixpoint drop_char (chars : list string) (s : string) : option string :=
  match chars with
  | [] => None
  | w :: rest =>
      match drop_prefix w s with
      | Some r => Some r
      | None => drop_char rest s
      end
  end.

(** Leading characters of [chars] removed one by one, at most [fuel] of
    them. *)
Fixpoint lstrip_chars (chars : list string) (fuel : nat) (s : string)
    : string :=
  match fuel with
  | O => s
  | S fuel' =>
      match drop_char chars s with
      | Some r => lstrip_chars chars fuel' r
      | None => s
      end
  end.

Fixpoint reverse (s : string) : string :=
  match s with
  | EmptyString => EmptyString
  | String c rest => reverse rest ++ String c EmptyString
  end.

(** [s.lstrip()]: a string holds no more characters than bytes. *)
Definition lstrip (s : string) : string :=
  lstrip_chars whitespace (String.length s) s.

(** [s.rstrip()]: the same from the other end, on the bytes in reverse
    order. *)
Definition rstrip (s : string) : string :=
  reverse (lstrip_chars (map reverse whitespace) (String.length s)
             (reverse s)).

(** [s.strip()]. *)
Definition strip (s : string) : string := rstrip (lstrip s).

(** [c in s] for a character. *)
Fixpoint contains (c : ascii) (s : string) : bool :=
  match s with
  | EmptyString => false
  | String d rest => Ascii.eqb d c || contains c rest
  end.

(** [str(n)] for a non-negative integer. *)
Definition str (n : nat) : string := NilEmpty.string_of_uint (Nat.to_uint n).

End PyStr.

(* ================================================================== *)
(** * Extractor: src/scraper/property_parser.py *)

(** A BeautifulSoup element as the parser observes it: its text and its
    attributes. *)
Record tag := mk_tag {
  tag_text : string;
  tag_attrs : list (string * string)
}.

(** [name in tag.attrs] / [tag[name]]: first binding of the attribute. *)
Fixpoint attr (name : string) (attrs : list (string * string)) : option string :=
  match attrs with
  | [] => None
  | (k, v) :: rest => if String.eqb k name then Some v else attr name rest
  end.

(** A listing fragment ([div.cassetteitem]) seen through
    [item.select_one(selector)]: the first matching descendant or [None].
    The CSS engine itself is outside the repository. *)
Record item := mk_item {
  select_one : string -> option tag
}.

(** A search-parameter dict: insertion-ordered string keys and values. *)
Definition params := list (string * string).

(** The dict built by [_extract_property_info], one field per key, plus
    the ['is_new'] key that only the diff step adds ([None]: key absent). *)
Record property_info := mk_property {
  p_name : string;          (* '物件名' *)
  p_location : string;      (* '所在地' *)
  p_access : string;        (* 'アクセス' *)
  p_age : string;           (* '築年数' *)
  p_rent : string;          (* '賃料' *)
  p_admin : string;         (* '管理費' *)
  p_deposit : string;       (* '敷金' *)
  p_gratuity : string;      (* '礼金' *)
  p_madori : string;        (* '間取り' *)
  p_menseki : string;       (* '専有面積' *)
  p_url : string;           (* '物件URL' *)
  p_main_image : string;    (* 'メイン画像' *)
  p_images : string;        (* '画像一覧' *)
  p_search_params : params; (* 'search_params' *)
  p_is_new : option bool    (* 'is_new' *)
}.

(** Outcome of a Python call that may raise. *)
Inductive result (A : Type) : Type :=
| Ok (a : A)
| Raised.
Arguments Ok {A} a.
Arguments Raised {A}.

Module PropertyParser.

Definition NA : string := "N/A".

(** [_get_text]: [element.text.strip() if element else 'N/A']. *)
Definition _get_text (it : item) (selector : string) : string :=
  match select_one it selector with
  | Some element => PyStr.strip (tag_text element)
  | None => NA
  end.

(** [_get_property_url]. *)
Definition _get_property_url (it : item) (base_url : string) : string :=
  match select_one it ".js-cassette_link_href" with
  | Some link =>
      match attr "href" (tag_attrs link) with
      | Some href =>
          let href := PyStr.split_first "?" href in
          if PyStr.startswith "/" href then "https://suumo.jp" ++ href
          else href
      | None => NA
      end
  | None => NA
  end.

(** [_extract_property_info]. [main_image['src']] raises [KeyError] when the
    image element has no [src] attribute; nothing else in the body raises. *)
Definition _extract_property_info (it : item) (base_url : string)
    (search_params : params) : result property_info :=
  let main_image := select_one it ".cassetteitem_object-item img" in
  match (match main_image with
         | Some img =>
             match attr "src" (tag_attrs img) with
             | Some src => Ok src
             | None => Raised
             end
         | None => Ok NA
         end) with
  | Raised => Raised
  | Ok main_image_url =>
      let thumbnail_div := select_one it ".casssetteitem_other-thumbnail" in
      let thumbnail_urls :=
        match thumbnail_div with
        | Some d =>
            match attr "data-imgs" (tag_attrs d) with
            | Some imgs => PyStr.split "," imgs
            | None => []
            end
        | None => []
        end in
      Ok {| p_name := _get_text it ".cassetteitem_content-title";
            p_location := _get_text it ".cassetteitem_detail-col1";
            p_access := _get_text it ".cassetteitem_detail-col2";
            p_age := _get_text it ".cassetteitem_detail-col3";
            p_rent := _get_text it ".cassetteitem_price--rent";
            p_admin := _get_text it ".cassetteitem_price--administration";
            p_deposit := _get_text it ".cassetteitem_price--deposit";
            p_gratuity := _get_text it ".cassetteitem_price--gratuity";
            p_madori := _get_text it ".cassetteitem_madori";
            p_menseki := _get_text it ".cassetteitem_menseki";
            p_url := _get_property_url it base_url;
            p_main_image := main_image_url;
            p_images := match thumbnail_urls with
                        | [] => NA
                        | _ => PyStr.join "," thumbnail_urls
                        end;
            p_search_params := search_params;
            p_is_new := None |}
  end.

(** The [for item in items] loop of [parse_properties]: a fragment whose
    extraction raises is skipped ([continue]), the others are appended in
    order. *)
Fixpoint parse_items (items : list item) (base_url : string)
    (search_params : params) : list property_info :=
  match items with
  | [] => []
  | it :: rest =>
      match _extract_property_info it base_url search_params with
      | Ok property_info =>
          property_info :: parse_items rest base_url search_params
      | Raised => parse_items rest base_url search_params
      end
  end.

(** [parse_properties], on the fragments [soup.select('div.cassetteitem')]
    finds in the page. *)
Definition parse_properties (items : list item) (base_url : string)
    (search_params : params) : list property_info :=
  match items with
  | [] => []
  | _ => parse_items items base_url search_params
  end.

End PropertyParser.

(* ================================================================== *)
(** * Crawl controller: SuumoScraper.scrape_properties (suumo_scraper.py) *)

(** The double-quote character, for the selectors that contain one. *)
Definition dq : string := String (ascii_of_nat 34) EmptyString.

(** A rendered page as the controller observes it through BeautifulSoup:
    the listing fragments [soup.select('div.cassetteitem')] and
    [soup.select_one(selector)] for the pagination selectors. *)
Record page := mk_page {
  soup_items : list item;
  soup_select_one : string -> option tag
}.

(** What the [try] block gets from the browser for one URL.
    [LoadFailed] stands for an exception raised by [driver.get],
    [wait_for_page_load] or [wait_for_element] (which times out when no
    [div.cassetteitem] appears).  Its argument is what the handler then
    reads from the driver: [Some (current_url, title)], or [None] when
    reading them raises too (the browser session is gone). *)
Inductive load_result : Type :=
| Loaded (html_content : page)
| LoadFailed (diagnostics : option (string * string)).

Record driver := mk_driver {
  driver_get : string -> load_result
}.

Module DriverManager.

(** [wait_for_element(By.CSS_SELECTOR, "div.cassetteitem")] on a page the
    browser has rendered (src/utils/driver_manager.py): it returns as
    soon as a listing fragment is present, and raises [TimeoutException]
    after 30 seconds when the page shows none. *)
Definition wait_for_element (html_content : page) : result unit :=
  match soup_items html_content with
  | [] => Raised
  | _ => Ok tt
  end.

(** What the [try] block gets for a URL the browser loads and renders as
    [html_content], the driver answering the handler with [current_url]
    and [title]: the page source, unless the wait for a listing fragment
    times out. *)
Definition rendered (html_content : page) (current_url title : string)
    : load_result :=
  match wait_for_element html_content with
  | Ok _ => Loaded html_content
  | Raised => LoadFailed (Some (current_url, title))
  end.

End DriverManager.

(** The lines [scrape_properties] itself prints. *)
Inductive log_line : Type :=
| LogAccess (url : string)          (* アクセスURL: {url} *)
| LogNoProperties                   (* 物件情報が見つかりませんでした。... *)
| LogPageCount (page n : nat)       (* ページ {page} の物件数: {n} *)
| LogTotal (n : nat)                (* 累計物件数: {n} *)
| LogNoNextPage                     (* 次のページが存在しません。... *)
| LogNextPage (page : nat)          (* 次のページが存在します。... *)
| LogError                          (* スクレイピング中にエラーが発生: {e} *)
| LogCurrentUrl (url : string)      (* 現在のURL: {current_url} *)
| LogTitle (title : string)         (* ページのタイトル: {title} *)
| LogDone (n : nat).                (* 全ページの取得が完了しました。総物件数: {n} *)

Module SuumoScraper.

Definition base_url : string :=
  "https://suumo.jp/jj/chintai/ichiran/FR301FC001/".

(** [d[key] = value] on an insertion-ordered dict. *)
Fixpoint dict_set (d : params) (key value : string) : params :=
  match d with
  | [] => [(key, value)]
  | (k, v) :: rest =>
      if String.eqb k key then (k, value) :: rest
      else (k, v) :: dict_set rest key value
  end.

(** The [for key, value in params.items()] loop of [build_search_url]. *)
Fixpoint query_params (p : params) : list string :=
  match p with
  | [] => []
  | (key, value) :: rest =>
      match value with
      | EmptyString => query_params rest
      | _ => (key ++ "=" ++ value)%string :: query_params rest
      end
  end.

Definition build_search_url (p : params) : string :=
  match query_params p with
  | [] => base_url
  | qs => base_url ++ "?" ++ PyStr.join "&" qs
  end.

Definition next_page_selector : string :=
  ".pagination-parts a:contains(" ++ dq ++ "次へ" ++ dq ++ ")".

Definition next_page_number_selector (page : nat) : string :=
  ".pagination-parts li a[href*=" ++ dq ++ "page=" ++ PyStr.str (page + 1)
  ++ dq ++ "]".

(** [current_params] and [url] of the iteration for [page]. *)
Definition current_params (p : params) (page : nat) : params :=
  dict_set p "page" (PyStr.str page).

Definition page_url (p : params) (page : nat) : string :=
  build_search_url (current_params p page).

(** The next-page test of the loop body:
    [not next_page and not next_page_number] is false. *)
Definition has_next_page (html_content : page) (page : nat) : bool :=
  match soup_select_one html_content next_page_selector,
        soup_select_one html_content (next_page_number_selector page) with
  | None, None => false
  | _, _ => true
  end.

(** How one pass through the body of [while True] ends. *)
Inductive step : Type :=
| Continue (all_properties : list property_info)   (* page += 1 *)
| Break (all_properties : list property_info)      (* break *)
| Propagate.                                       (* the handler raised *)

(** One pass through the loop body, with the lines it prints. *)
Definition iteration (d : driver) (p : params) (page : nat)
    (all_properties : list property_info) : list log_line * step :=
  let cur := current_params p page in
  let url := build_search_url cur in
  match driver_get d url with
  | Loaded html_content =>
      match PropertyParser.parse_properties (soup_items html_content)
              base_url cur with
      | [] => ([LogAccess url; LogNoProperties], Break all_properties)
      | properties =>
          let all_properties := all_properties ++ properties in
          let counts := [LogAccess url;
                         LogPageCount page (List.length properties);
                         LogTotal (List.length all_properties)] in
          if has_next_page html_content page
          then (counts ++ [LogNextPage (page + 1)], Continue all_properties)
          else (counts ++ [LogNoNextPage], Break all_properties)
      end
  | LoadFailed (Some (current_url, title)) =>
      ([LogAccess url; LogError; LogCurrentUrl current_url; LogTitle title],
       Break all_properties)
  | LoadFailed None =>
      ([LogAccess url; LogError], Propagate)
  end.

(** The [while True] loop from [page] on, run for at most [fuel] passes:
    the lines printed so far and, when the loop has ended within the
    fuel, what [scrape_properties] returns or that it raised. *)
Fixpoint scrape_loop (fuel : nat) (d : driver) (p : params) (page : nat)
    (all_properties : list property_info)
    : list log_line * option (result (list property_info)) :=
  match fuel with
  | O => ([], None)
  | S fuel' =>
      match iteration d p page all_properties with
      | (lines, Continue all_properties') =>
          let '(more, r) := scrape_loop fuel' d p (S page) all_properties' in
          (lines ++ more, r)
      | (lines, Break all_properties') =>
          (lines ++ [LogDone (List.length all_properties')],
           Some (Ok all_properties'))
      | (lines, Propagate) => (lines, Some Raised)
      end
  end.

(** [scrape_properties]: [all_properties = []], [page = 1]. *)
Definition scrape_properties (fuel : nat) (d : driver) (p : params)
    : list log_line * option (result (list property_info)) :=
  scrape_loop fuel d p 1 [].

(** The URLs passed to [driver.get], read off the printed lines (each
    request is preceded by its アクセスURL line). *)
Fixpoint requests (lines : list log_line) : list string :=
  match lines with
  | [] => []
  | LogAccess url :: rest => url :: requests rest
  | _ :: rest => requests rest
  end.

(** The records one page contributes, and whether the loop goes on after
    it. *)
Definition page_properties (d : driver) (p : params) (page : nat)
    : list property_info :=
  match driver_get d (page_url p page) with
  | Loaded html_content =>
      PropertyParser.parse_properties (soup_items html_content) base_url
        (current_params p page)
  | LoadFailed _ => []
  end.

Definition continues (d : driver) (p : params) (page : nat) : bool :=
  match driver_get d (page_url p page) with
  | Loaded html_content =>
      match page_properties d p page with
      | [] => false
      | _ => has_next_page html_content page
      end
  | LoadFailed _ => false
  end.

End SuumoScraper.

(* ================================================================== *)
(** * Local time: time.localtime / time.strftime *)

(** The clock of one invocation: the instant (seconds since the epoch)
    and the local zone, given as its UTC offset in seconds at each
    instant.  The few clock reads of one call of [_get_sheet_name] or of
    [_handle_new_properties] are taken at one instant; the two calls
    stand on either side of the requests that create and fill the sheet,
    and each gets a clock of its own. *)
Record clock := mk_clock {
  time_time : Z;
  utc_offset : Z -> Z
}.

Record struct_tm := mk_tm {
  tm_year : Z;
  tm_mon : Z;
  tm_mday : Z;
  tm_hour : Z
}.

Module PyTime.
Local Open Scope Z_scope.

(** Civil date of a day number (days since 1970-01-01), proleptic
    Gregorian calendar. *)
Definition civil_from_days (days : Z) : Z * Z * Z :=
  let z := days + 719468 in
  let era := z / 146097 in
  let doe := z - era * 146097 in
  let yoe := (doe - doe / 1460 + doe / 36524 - doe / 146096) / 365 in
  let doy := doe - (365 * yoe + yoe / 4 - yoe / 100) in
  let mp := (5 * doy + 2) / 153 in
  let d := doy - (153 * mp + 2) / 5 + 1 in
  let m := if mp <? 10 then mp + 3 else mp - 9 in
  let y := yoe + era * 400 + (if m <=? 2 then 1 else 0) in
  (y, m, d).

(** Local day number and local hour of an instant. *)
Definition local_day (tz : Z -> Z) (t : Z) : Z := (t + tz t) / 86400.
Definition local_hour (tz : Z -> Z) (t : Z) : Z :=
  ((t + tz t) mod 86400) / 3600.

(** The date of a day number as a [struct_tm] (hour 0). *)
Definition tm_of_day (day : Z) : struct_tm :=
  let '(y, m, d) := civil_from_days day in
  {| tm_year := y; tm_mon := m; tm_mday := d; tm_hour := 0 |}.

(** [time.localtime(t)] in the zone [tz]. *)
Definition localtime (tz : Z -> Z) (t : Z) : struct_tm :=
  let '(y, m, d) := civil_from_days (local_day tz t) in
  {| tm_year := y; tm_mon := m; tm_mday := d; tm_hour := local_hour tz t |}.

Definition two_digits (n : Z) : string :=
  if n <? 10 then ("0" ++ PyStr.str (Z.to_nat n))%string
  else PyStr.str (Z.to_nat n).

(** [time.strftime("%Y/%m/%d", tm)] (years of the common era). *)
Definition strftime_ymd (tm : struct_tm) : string :=
  (PyStr.str (Z.to_nat (tm_year tm)) ++ "/" ++ two_digits (tm_mon tm)
   ++ "/" ++ two_digits (tm_mday tm))%string.

End PyTime.

(* ================================================================== *)
(** * Run registry and diff: src/sheets/sheets_manager.py *)

(** The answer of [spreadsheets().values().get(...).execute()]. *)
Inductive get_response : Type :=
| GetRaised                                (* the request raised *)
| GetNoValues                              (* no 'values' key *)
| GetValues (values : list (list string)).

(** A cell of the rows [_write_data] sends: a string, or, in the
    ['is_new'] column of a frame, [True]/[False] or the [NaN] pandas puts
    where a record has no such key. *)
Inductive cell : Type :=
| CellStr (s : string)
| CellBool (b : bool)
| CellNaN.

(** The Google Sheets service object, by the calls the manager makes. *)
Record sheets_service := mk_service {
  (* batchUpdate with one addSheet request: the id of the new sheet *)
  add_sheet : string -> string -> result Z;
  (* values().update(range, body): spreadsheet, range, rows *)
  values_update : string -> string -> list (list cell) -> result unit;
  (* values().get(range) *)
  values_get : string -> string -> get_response;
  (* batchUpdate with one repeatCell request per row: spreadsheet,
     sheet id, rows *)
  repeat_cells : string -> Z -> list nat -> result unit
}.

(** A pandas frame of sheet cells: column labels and rows, a row shorter
    than the header being filled with [None]. *)
Record DataFrame := mk_frame {
  columns : list string;
  rows : list (list (option string))
}.

Module Pandas.

Fixpoint pad (width : nat) (row : list string) : list (option string) :=
  match width with
  | O => []
  | S w =>
      match row with
      | [] => None :: pad w []
      | c :: rest => Some c :: pad w rest
      end
  end.

(** [pd.DataFrame(data, columns=cols)] on lists of cells: a row wider
    than the header raises [ValueError]. *)
Definition DataFrame_of (data : list (list string)) (cols : list string)
    : result DataFrame :=
  if existsb (fun r => Nat.ltb (List.length cols) (List.length r)) data
  then Raised
  else Ok {| columns := cols; rows := map (pad (List.length cols)) data |}.

(** [df.empty]: some axis has length 0. *)
Definition empty (df : DataFrame) : bool :=
  match columns df, rows df with
  | [], _ => true
  | _, [] => true
  | _, _ => false
  end.

(** [name in df.columns]. *)
Definition has_column (df : DataFrame) (name : string) : bool :=
  existsb (String.eqb name) (columns df).

(** Positions of a label among the column labels. *)
Fixpoint positions (name : string) (cols : list string) (i : nat) : list nat :=
  match cols with
  | [] => []
  | c :: rest =>
      if String.eqb name c then i :: positions name rest (S i)
      else positions name rest (S i)
  end.

(** [df[name].tolist()]: with a repeated label [df[name]] is a frame,
    which has no [tolist], and the call raises. *)
Definition column_tolist (df : DataFrame) (name : string)
    : result (list (option string)) :=
  match positions name (columns df) 0 with
  | [i] => Ok (map (fun r => nth i r None) (rows df))
  | _ => Raised
  end.

End Pandas.

Module SheetsManager.

Definition URL_KEY : string := "物件URL".

(** [key in property_info] for ['is_new']. *)
Definition has_is_new (p : property_info) : bool :=
  match p_is_new p with
  | Some _ => true
  | None => false
  end.

(** The column labels of [pd.DataFrame(properties)] without
    ['search_params']: the keys of the records in order of first
    appearance, ['is_new'] coming last when some record has it. *)
Definition output_columns (properties : list property_info) : list string :=
  ["物件名"; "所在地"; "アクセス"; "築年数"; "賃料"; "管理費"; "敷金"; "礼金";
   "間取り"; "専有面積"; URL_KEY; "メイン画像"; "画像一覧"]
  ++ (if existsb has_is_new properties then ["is_new"] else []).

(** One row of [df.values]. *)
Definition row_of (with_is_new : bool) (p : property_info) : list cell :=
  map CellStr
    [p_name p; p_location p; p_access p; p_age p; p_rent p; p_admin p;
     p_deposit p; p_gratuity p; p_madori p; p_menseki p; p_url p;
     p_main_image p; p_images p]
  ++ (if with_is_new
      then [match p_is_new p with
            | Some b => CellBool b
            | None => CellNaN
            end]
      else []).

(** The ['values'] of the body [_write_data] sends. *)
Definition sheet_values (properties : list property_info)
    (search_url : string) : list (list cell) :=
  [ CellStr ("スクレイピングURL: " ++ search_url)%string ]
  :: [ CellStr "" ]
  :: map CellStr (output_columns properties)
  :: map (row_of (existsb has_is_new properties)) properties.

(** [_get_sheet_name]. *)
Definition _get_sheet_name (c : clock) : string :=
  let current_hour := PyTime.local_hour (utc_offset c) (time_time c) in
  let sheet_suffix := if (current_hour <? 12)%Z then "AM" else "PM" in
  let current_date :=
    PyTime.strftime_ymd (PyTime.localtime (utc_offset c) (time_time c)) in
  (current_date ++ "/" ++ sheet_suffix)%string.

(** [_create_new_sheet]. *)
Definition _create_new_sheet (svc : sheets_service)
    (spreadsheet_id sheet_name : string) : result Z :=
  add_sheet svc spreadsheet_id sheet_name.

(** [_write_data]. *)
Definition _write_data (svc : sheets_service)
    (spreadsheet_id sheet_name : string)
    (properties : list property_info) (search_url : string) : result unit :=
  values_update svc spreadsheet_id (sheet_name ++ "!A1")%string
    (sheet_values properties search_url).

(** The sheet [_handle_new_properties] compares against (its lines
    168-178). *)
Definition target_sheet (c : clock) : string :=
  let current_hour := PyTime.local_hour (utc_offset c) (time_time c) in
  if (current_hour <? 12)%Z then
    let yesterday := (time_time c - 24 * 60 * 60)%Z in
    (PyTime.strftime_ymd (PyTime.localtime (utc_offset c) yesterday)
     ++ "/PM")%string
  else
    (PyTime.strftime_ymd (PyTime.localtime (utc_offset c) (time_time c))
     ++ "/AM")%string.

(** [_get_previous_data]: [values[2]] raises [IndexError] on fewer than
    three rows; every exception gives [None]. *)
Definition _get_previous_data (svc : sheets_service)
    (spreadsheet_id target : string) : option DataFrame :=
  match values_get svc spreadsheet_id (target ++ "!A:Z")%string with
  | GetValues values =>
      match nth_error values 2 with
      | Some header =>
          match Pandas.DataFrame_of (skipn 2 values) header with
          | Ok df => Some df
          | Raised => None
          end
      | None => None
      end
  | GetNoValues => None
  | GetRaised => None
  end.

(** [_highlight_rows]: no request is sent for an empty list of rows. *)
Definition _highlight_rows (svc : sheets_service) (spreadsheet_id : string)
    (sheet_id : Z) (rows : list nat) : result unit :=
  match rows with
  | [] => Ok tt
  | _ => repeat_cells svc spreadsheet_id sheet_id rows
  end.

(** [property_info['is_new'] = True]. *)
Definition set_is_new (p : property_info) : property_info :=
  {| p_name := p_name p; p_location := p_location p; p_access := p_access p;
     p_age := p_age p; p_rent := p_rent p; p_admin := p_admin p;
     p_deposit := p_deposit p; p_gratuity := p_gratuity p;
     p_madori := p_madori p; p_menseki := p_menseki p; p_url := p_url p;
     p_main_image := p_main_image p; p_images := p_images p;
     p_search_params := p_search_params p; p_is_new := Some true |}.

(** [prop.get('is_new', False)]. *)
Definition get_is_new (p : property_info) : bool :=
  match p_is_new p with
  | Some b => b
  | None => false
  end.

Definition cell_eqb (a b : option string) : bool :=
  match a, b with
  | Some x, Some y => String.eqb x y
  | None, None => true
  | _, _ => false
  end.

(** [url in previous_urls]. *)
Definition url_in (url : string) (previous_urls : list (option string)) : bool :=
  existsb (cell_eqb (Some url)) previous_urls.

(** The [for i, property_info in enumerate(properties, start=i)] loop of
    [_mark_new_properties]: the rows collected and the records after the
    in-place updates. *)
Fixpoint mark_loop (previous_urls : list (option string)) (i : nat)
    (properties : list property_info) : list nat * list property_info :=
  match properties with
  | [] => ([], [])
  | property_info :: rest =>
      let '(new_rows, rest') := mark_loop previous_urls (S i) rest in
      if url_in (p_url property_info) previous_urls
      then (new_rows, property_info :: rest')
      else (i :: new_rows, set_is_new property_info :: rest')
  end.

(** [_mark_new_properties]: the value returned (or the exception) and
    the records as the call leaves them. *)
Definition _mark_new_properties (svc : sheets_service)
    (spreadsheet_id : string) (sheet_id : Z)
    (properties : list property_info) (previous_data : DataFrame)
    : result nat * list property_info :=
  if Pandas.has_column previous_data URL_KEY then
    match Pandas.column_tolist previous_data URL_KEY with
    | Raised => (Raised, properties)
    | Ok previous_urls =>
        let '(new_properties_rows, properties') :=
          mark_loop previous_urls 4 properties in
        match new_properties_rows with
        | [] => (Ok 0, properties')
        | _ =>
            match _highlight_rows svc spreadsheet_id sheet_id
                    new_properties_rows with
            | Raised => (Raised, properties')
            | Ok _ => (Ok (List.length new_properties_rows), properties')
            end
        end
    end
  else (Ok 0, properties).

(** [_mark_all_as_new]: the rows are highlighted before the records are
    tagged. *)
Definition _mark_all_as_new (svc : sheets_service)
    (spreadsheet_id : string) (sheet_id : Z)
    (properties : list property_info) : result nat * list property_info :=
  let new_rows := seq 4 (List.length properties) in
  match new_rows with
  | [] => (Ok 0, properties)
  | _ =>
      match _highlight_rows svc spreadsheet_id sheet_id new_rows with
      | Raised => (Raised, properties)
      | Ok _ => (Ok (List.length new_rows), map set_is_new properties)
      end
  end.

(** The branch of [_handle_new_properties] on the data it found. *)
Definition mark_against (svc : sheets_service) (spreadsheet_id : string)
    (sheet_id : Z) (properties : list property_info)
    (previous_data : option DataFrame) : result nat * list property_info :=
  match previous_data with
  | Some df =>
      if Pandas.empty df
      then _mark_all_as_new svc spreadsheet_id sheet_id properties
      else _mark_new_properties svc spreadsheet_id sheet_id properties df
  | None => _mark_all_as_new svc spreadsheet_id sheet_id properties
  end.

(** [_handle_new_properties]. *)
Definition _handle_new_properties (svc : sheets_service) (c : clock)
    (spreadsheet_id : string) (sheet_id : Z)
    (properties : list property_info) : result nat * list property_info :=
  let previous_data :=
    _get_previous_data svc spreadsheet_id (target_sheet c) in
  mark_against svc spreadsheet_id sheet_id properties previous_data.

(** [export_properties]: the count returned and the records as the call
    leaves them; any exception of the [try] block gives 0.  [c_sheet] is
    the clock when [_get_sheet_name] reads it, [c_diff] the clock when
    [_handle_new_properties] reads it again, after the sheet has been
    created and written. *)
Definition export_properties (svc : sheets_service) (c_sheet c_diff : clock)
    (properties : list property_info) (spreadsheet_id search_url : string)
    : nat * list property_info :=
  match properties with
  | [] => (0, properties)
  | _ =>
      let sheet_name := _get_sheet_name c_sheet in
      match _create_new_sheet svc spreadsheet_id sheet_name with
      | Raised => (0, properties)
      | Ok sheet_id =>
          match _write_data svc spreadsheet_id sheet_name properties
                  search_url with
          | Raised => (0, properties)
          | Ok _ =>
              match _handle_new_properties svc c_diff spreadsheet_id
                      sheet_id properties with
              | (Ok new_properties_count, properties') =>
                  (new_properties_count, properties')
              | (Raised, properties') => (0, properties')
              end
          end
      end
  end.

End SheetsManager.

(* ================================================================== *)
(** * Notification: notification_service.py and export_to_sheets *)

(** What the mail states: the total, the records listed, the sheet link
    and whether the "first N only" note is shown. *)
Record message := mk_message {
  msg_total_count : nat;
  msg_display_properties : list property_info;
  msg_sheet_url : string;
  msg_truncated_note : bool
}.

Module NotificationService.

Definition max_properties : nat := 5.

(** [send_notification]: nothing is composed for an empty list; otherwise
    the message lists [new_properties[:max_properties]]. *)
Definition send_notification (new_properties : list property_info)
    (sheet_url : string) : option message :=
  match new_properties with
  | [] => None
  | _ =>
      let total_count := List.length new_properties in
      Some {| msg_total_count := total_count;
              msg_display_properties := firstn max_properties new_properties;
              msg_sheet_url := sheet_url;
              msg_truncated_note := Nat.ltb max_properties total_count |}
  end.

End NotificationService.

(** What one call of [export_to_sheets] does: the count it got, the
    records as it leaves them, and the arguments of its call of
    [send_notification], if it makes one. *)
Record export_outcome := mk_outcome {
  out_count : nat;
  out_properties : list property_info;
  out_notified : option (list property_info * string)
}.

Module SuumoExport.

(** [SuumoScraper.export_to_sheets]. *)
Definition export_to_sheets (svc : sheets_service) (c_sheet c_diff : clock)
    (properties : list property_info) (spreadsheet_id search_url : string)
    : export_outcome :=
  let '(new_properties_count, properties') :=
    SheetsManager.export_properties svc c_sheet c_diff properties
      spreadsheet_id search_url in
  if Nat.ltb 0 new_properties_count then
    let sheet_url :=
      ("https://docs.google.com/spreadsheets/d/" ++ spreadsheet_id)%string in
    let new_properties := filter SheetsManager.get_is_new properties' in
    {| out_count := new_properties_count;
       out_properties := properties';
       out_notified := Some (new_properties, sheet_url) |}
  else
    {| out_count := new_properties_count;
       out_properties := properties';
       out_notified := None |}.

End SuumoExport.

(* ================================================================== *)
(** * The program: main (suumo_scraper.py) *)

(** What [main] gets from its configuration: the parameters
    [load_search_params] reads (or its exception) and the SPREADSHEET_ID
    environment variable, if set. *)
Record configuration := mk_configuration {
  params_json : result params;
  spreadsheet_env : option string
}.

(** How one call of [main] ends. *)
Inductive main_outcome : Type :=
| MainNoParams                              (* 検索パラメータの読み込みに失敗 *)
| MainRaised                                (* an exception leaves [main] *)
| MainNoSpreadsheet (properties : list property_info)
                                            (* SPREADSHEET_ID not found *)
| MainExported (properties : list property_info) (out : export_outcome).

Module Main.

(** [main], for a crawl that ends within [fuel] passes ([None]
    otherwise).  [get_env_var] raises [KeyError] when the variable is not
    set, so the [else] branch is reached with an empty value only. *)
Definition main (fuel : nat) (cfg : configuration) (d : driver)
    (svc : sheets_service) (c_sheet c_diff : clock) : option main_outcome :=
  match params_json cfg with
  | Raised => Some MainRaised
  | Ok [] => Some MainNoParams
  | Ok p =>
      match snd (SuumoScraper.scrape_properties fuel d p) with
      | None => None
      | Some Raised => Some MainRaised
      | Some (Ok properties) =>
          match spreadsheet_env cfg with
          | None => Some MainRaised
          | Some EmptyString => Some (MainNoSpreadsheet properties)
          | Some spreadsheet_id =>
              let search_url := SuumoScraper.build_search_url p in
              Some (MainExported properties
                      (SuumoExport.export_to_sheets svc c_sheet c_diff
                         properties spreadsheet_id search_url))
          end
      end
  end.

End Main.

(* ================================================================== *)
(** * Vocabulary of the statements *)

Module ParserSpec.
Import PropertyParser.

(** The selector of each optional field and the record field it fills. *)
Definition optional_fields : list (string * (property_info -> string)) :=
  [ (".cassetteitem_content-title", p_name);
    (".cassetteitem_detail-col1", p_location);
    (".cassetteitem_detail-col2", p_access);
    (".cassetteitem_detail-col3", p_age);
    (".cassetteitem_price--rent", p_rent);
    (".cassetteitem_price--administration", p_admin);
    (".cassetteitem_price--deposit", p_deposit);
    (".cassetteitem_price--gratuity", p_gratuity);
    (".cassetteitem_madori", p_madori);
    (".cassetteitem_menseki", p_menseki);
    (".js-cassette_link_href", p_url);
    (".cassetteitem_object-item img", p_main_image);
    (".casssetteitem_other-thumbnail", p_images) ].

(** What one fragment contributes to the page's records. *)
Definition contribution (it : item) (base : string) (sp : params)
    : list property_info :=
  match _extract_property_info it base sp with
  | Ok r => [r]
  | Raised => []
  end.

End ParserSpec.

Module CrawlSpec.
Import SuumoScraper.

(** The request for page [n] raises. *)
Definition fetch_fails (d : driver) (p : params) (n : nat) : Prop :=
  exists diagnostics, driver_get d (page_url p n) = LoadFailed diagnostics.

(** No request ever raises. *)
Definition never_fails (d : driver) : Prop :=
  forall url, exists html_content, driver_get d url = Loaded html_content.

End CrawlSpec.

Module DiffSpec.
Import SheetsManager.

(** The URL of a record is not among the URLs of the previous run. *)
Definition is_absent (previous_urls : list (option string))
    (p : property_info) : bool :=
  negb (url_in (p_url p) previous_urls).

(** A record after the comparison: tagged when its URL is absent,
    untouched otherwise. *)
Definition tag_new (previous_urls : list (option string))
    (p : property_info) : property_info :=
  if url_in (p_url p) previous_urls then p else set_is_new p.

(** A record as the extractor builds it: no ['is_new'] key yet. *)
Definition untagged (p : property_info) : Prop := p_is_new p = None.

(** The lookup of the previous run gave nothing to compare with:
    [previous_data is None or previous_data.empty]. *)
Definition no_previous_data (previous_data : option DataFrame) : Prop :=
  match previous_data with
  | None => True
  | Some df => Pandas.empty df = true
  end.

(** The formatting request of the service succeeds whatever the rows. *)
Definition highlight_succeeds (svc : sheets_service) (spreadsheet_id : string)
    (sheet_id : Z) : Prop :=
  forall rows, repeat_cells svc spreadsheet_id sheet_id rows = Ok tt.

End DiffSpec.

Module SlotSpec.

(** The half-day slot of a run. *)
Inductive slot : Type := AM | PM.

Definition slot_name (s : slot) : string :=
  match s with
  | AM => "AM"
  | PM => "PM"
  end.

(** The identity of the run at the clock [c]: its local day number (days
    since 1970-01-01) and its slot, the boundary being 12:00 local time. *)
Definition current_day (c : clock) : Z :=
  PyTime.local_day (utc_offset c) (time_time c).

Definition current_slot (c : clock) : slot :=
  if (PyTime.local_hour (utc_offset c) (time_time c) <? 12)%Z
  then AM else PM.

(** The name of the sheet that holds the run of a day and a slot. *)
Definition sheet_name_of (day : Z) (s : slot) : string :=
  (PyTime.strftime_ymd (PyTime.tm_of_day day) ++ "/" ++ slot_name s)%string.

End SlotSpec.

(* ================================================================== *)
(** * Concrete inputs used in the examples below *)

Module Fixtures.

(** A fragment given by the elements its selectors find. *)
Fixpoint find_tag (selector : string) (l : list (string * tag)) : option tag :=
  match l with
  | [] => None
  | (k, t) :: rest => if String.eqb k selector then Some t else find_tag selector rest
  end.

Definition item_of (l : list (string * tag)) : item :=
  mk_item (fun selector => find_tag selector l).

Definition link_to (href : string) : string * tag :=
  (".js-cassette_link_href", mk_tag "" [("href", href)]).

Definition title (name : string) : string * tag :=
  (".cassetteitem_content-title", mk_tag name []).

(** Two fragments for the same listing, reached through different
    queries. *)
Definition item_q1 : item :=
  item_of [title "A"; link_to "/chintai/123?query=1"].
Definition item_q2 : item :=
  item_of [title "A"; link_to "/chintai/123?bc=100&page=2"].

(** A fragment with a title, a link and an image, and nothing else. *)
Definition item_sparse : item :=
  item_of [title " Maison A "; link_to "/chintai/jnc_1/?bc=1";
           (".cassetteitem_object-item img",
            mk_tag "" [("src", "https://img.example/1.jpg")])].

(** A fragment whose image element has no [src] attribute. *)
Definition item_broken : item :=
  item_of [title "Maison B";
           (".cassetteitem_object-item img", mk_tag "" [("alt", "x")])].

(** A fragment with a link and nothing else. *)
Definition item_c : item := item_of [link_to "/chintai/jnc_3/"].

(** A catalog page with the given fragments, with or without a link
    labelled 次へ in its pagination. *)
Definition page_with (items : list item) (next : bool) : page :=
  mk_page items
    (fun selector =>
       if next && String.eqb selector SuumoScraper.next_page_selector
       then Some (mk_tag "次へ" [("href", "?page=2")])
       else None).

Definition search : params := [("ar", "030"); ("bs", "040"); ("cb", "")].

(** Page 1 has one listing and a next link; the request for page 2
    fails, the driver still answering the handler. *)
Definition driver_failing : driver :=
  mk_driver (fun url =>
    if String.eqb url (SuumoScraper.page_url search 1)
    then Loaded (page_with [item_sparse] true)
    else LoadFailed (Some (url, "SUUMO"))).

(** The same catalog, page 2 loading with a fragment that cannot be
    read and no next link; no request fails. *)
Definition driver_ending : driver :=
  mk_driver (fun url =>
    if String.eqb url (SuumoScraper.page_url search 1)
    then Loaded (page_with [item_sparse] true)
    else Loaded (page_with [item_broken] false)).

(** The catalog ends with an empty page: page 1 has one listing and a
    next link, every later page is rendered without any listing
    fragment, its pagination still showing the next link. *)
Definition driver_no_listing : driver :=
  mk_driver (fun url =>
    if String.eqb url (SuumoScraper.page_url search 1)
    then DriverManager.rendered (page_with [item_sparse] true) url "SUUMO"
    else DriverManager.rendered (page_with [] true) url "SUUMO").

(** A record with the given name and detail URL. *)
Definition listing (name url : string) : property_info :=
  {| p_name := name; p_location := "N/A"; p_access := "N/A";
     p_age := "N/A"; p_rent := "N/A"; p_admin := "N/A"; p_deposit := "N/A";
     p_gratuity := "N/A"; p_madori := "N/A"; p_menseki := "N/A";
     p_url := url; p_main_image := "N/A"; p_images := "N/A";
     p_search_params := search; p_is_new := None |}.

Definition url_A : string := "https://suumo.jp/chintai/jnc_A/".
Definition url_B : string := "https://suumo.jp/chintai/jnc_B/".
Definition url_C : string := "https://suumo.jp/chintai/jnc_C/".
Definition url_D : string := "https://suumo.jp/chintai/jnc_D/".

Definition rec_A := listing "A" url_A.
Definition rec_B := listing "B" url_B.
Definition rec_C := listing "C" url_C.
Definition rec_D := listing "D" url_D.

(** The previous run {A, B} as [_write_data] stored it, and the current
    run {A, C, D}. *)
Definition previous_run : list property_info := [rec_A; rec_B].
Definition current_run : list property_info := [rec_A; rec_C; rec_D].

(** A stored cell as [values().get] gives it back. *)
Definition cell_text (x : cell) : string :=
  match x with
  | CellStr s => s
  | CellBool true => "TRUE"
  | CellBool false => "FALSE"
  | CellNaN => ""
  end.

(** A spreadsheet holding the given sheets; every write succeeds, and
    reading a sheet that does not exist raises. *)
Fixpoint find_sheet (range : string)
    (sheets : list (string * list (list string))) : get_response :=
  match sheets with
  | [] => GetRaised
  | (name, values) :: rest =>
      if String.eqb range (name ++ "!A:Z") then GetValues values
      else find_sheet range rest
  end.

Definition service_with (sheets : list (string * list (list string)))
    : sheets_service :=
  {| add_sheet := fun _ _ => Ok 7%Z;
     values_update := fun _ _ _ => Ok tt;
     values_get := fun _ range => find_sheet range sheets;
     repeat_cells := fun _ _ _ => Ok tt |}.

(** Japan Standard Time, and two instants of 2024-05-10: 06:00 and
    18:00 local time. *)
Definition jst : Z -> Z := fun _ => 32400%Z.
Definition morning : clock := mk_clock 1715288400 jst.
Definition evening : clock := mk_clock 1715331600 jst.

(** One second before and one second after noon of that day
    (11:59:59 and 12:00:01). *)
Definition before_noon : clock := mk_clock 1715309999 jst.
Definition after_noon : clock := mk_clock 1715310001 jst.

(** The morning run stored {A, B}; the evening run compares with it. *)
Definition service_AB : sheets_service :=
  service_with
    [("2024/05/10/AM",
      map (map cell_text) (SheetsManager.sheet_values previous_run "u"))].


(** A morning sheet whose header row has no URL column. *)
Definition service_no_url_column : sheets_service :=
  service_with
    [("2024/05/10/AM", [["x"]; []; ["物件名"; "賃料"]; ["A"; "7万円"]])].

(** A zone with daylight saving time, as US Eastern time in 2024: UTC-5
    until 2024-03-10 07:00 UTC, UTC-4 from then on; and the instant
    2024-03-11 00:30 local time. *)
Definition new_york : Z -> Z :=
  fun t => if (t <? 1710054000)%Z then (-18000)%Z else (-14400)%Z.
Definition after_spring_forward : clock := mk_clock 1710131400 new_york.

End Fixtures.

(* ================================================================== *)
(** * Properties *)

Module TextSpec.

(** A string made of characters of [chars] only. *)
Inductive run_of (chars : list string) : string -> Prop :=
| run_nil : run_of chars EmptyString
| run_cons : forall w s,
    In w chars -> run_of chars s -> run_of chars (w ++ s)%string.

(** White space only. *)
Definition blank : string -> Prop := run_of PyStr.whitespace.

(** The ideographic space U+3000 and the no-break space U+00A0. *)
Definition ideographic_space : string := PyStr.bytes [227; 128; 128].
Definition no_break_space : string := PyStr.bytes [194; 160].

End TextSpec.

Module MoreFixtures.
Import Fixtures.

(** A fragment whose thumbnail element lists two images, and one whose
    [data-imgs] attribute is the empty string. *)
Definition item_thumbs : item :=
  item_of [title "T"; link_to "https://suumo.jp/chintai/jnc_1/";
           (".casssetteitem_other-thumbnail",
            mk_tag "" [("data-imgs", "a.jpg,b.jpg")])].

Definition item_no_thumbs : item :=
  item_of [title "T";
           (".casssetteitem_other-thumbnail", mk_tag "" [("data-imgs", "")])].

(** A fragment whose title stands between ideographic spaces (U+3000),
    as the catalog pads its texts, and whose rent ends with a no-break
    space (U+00A0) and a line break. *)
Definition item_padded : item :=
  item_of [title (TextSpec.ideographic_space ++ "メゾン A"
                  ++ TextSpec.ideographic_space);
           (".cassetteitem_price--rent",
            mk_tag ("7.5万円" ++ TextSpec.no_break_space ++ PyStr.bytes [10])
              [])].

End MoreFixtures.

Module CrawlSpec2.
Import SuumoScraper.

(** Page [n] loads and is the last one: it has no record or no next-page
    link. *)
Definition last_page (d : driver) (p : params) (n : nat) : Prop :=
  (exists html_content, driver_get d (page_url p n) = Loaded html_content)
  /\ continues d p n = false.

End CrawlSpec2.

Module ExportFixtures.
Import Fixtures.

(** The sheet of the current slot exists already: [addSheet] raises. *)
Definition service_sheet_exists : sheets_service :=
  {| add_sheet := fun _ _ => Raised;
     values_update := fun _ _ _ => Ok tt;
     values_get := fun _ range =>
       find_sheet range
         [("2024/05/10/AM",
           map (map cell_text) (SheetsManager.sheet_values previous_run "u"))];
     repeat_cells := fun _ _ _ => Ok tt |}.

(** The morning sheet {A, B} is there, but formatting requests raise. *)
Definition service_no_format : sheets_service :=
  {| add_sheet := fun _ _ => Ok 7%Z;
     values_update := fun _ _ _ => Ok tt;
     values_get := fun _ range =>
       find_sheet range
         [("2024/05/10/AM",
           map (map cell_text) (SheetsManager.sheet_values previous_run "u"))];
     repeat_cells := fun _ _ _ => Raised |}.

(** Seven new records. *)
Definition seven : list property_info :=
  map (fun n => SheetsManager.set_is_new (listing n ("https://suumo.jp/" ++ n)))
      ["1"; "2"; "3"; "4"; "5"; "6"; "7"].

End ExportFixtures.

Module RegistrySpec.

(** A written cell as [values().get] gives it back. *)
Definition cell_as_read (x : cell) : string :=
  match x with
  | CellStr s => s
  | CellBool true => "TRUE"
  | CellBool false => "FALSE"
  | CellNaN => ""
  end.

(** The service leaves out the empty cells at the end of a row. *)
Fixpoint trim_row (row : list string) : list string :=
  match row with
  | [] => []
  | c :: rest =>
      match trim_row rest with
      | [] => match c with
              | EmptyString => []
              | _ => [c]
              end
      | kept => c :: kept
      end
  end.

(** The header row [_write_data] writes for records without tag. *)
Definition labels : list string :=
  ["物件名"; "所在地"; "アクセス"; "築年数"; "賃料"; "管理費"; "敷金"; "礼金";
   "間取り"; "専有面積"; SheetsManager.URL_KEY; "メイン画像"; "画像一覧"].

(** The rows read from a sheet holding the given written rows. *)
Definition read_back (values : list (list cell)) : list (list string) :=
  map (fun row => trim_row (map cell_as_read row)) values.


End RegistrySpec.

Module RegistryFixtures.
Import Fixtures.

(** The morning sheet {A, B}, read back as the service returns it. *)
Definition service_read_back : sheets_service :=
  service_with
    [("2024/05/10/AM",
      RegistrySpec.read_back (SheetsManager.sheet_values previous_run "u"))].

(** A morning sheet that holds the URL line only. *)
Definition service_short_sheet : sheets_service :=
  service_with [("2024/05/10/AM", [["スクレイピングURL: u"]; []])].

(** A record whose detail URL is the column label itself. *)
Definition rec_label : property_info :=
  listing "L" SheetsManager.URL_KEY.



End RegistryFixtures.

Module QuerySpec.

(** [if value:] on a parameter. *)
Definition has_value (kv : string * string) : bool :=
  match snd kv with
  | EmptyString => false
  | _ => true
  end.

End QuerySpec.

Module TagSpec.

(** A record before and after the diff: the same, or the same with the
    tag set. *)
Definition only_tagged (p q : property_info) : Prop :=
  q = p \/ q = SheetsManager.set_is_new p.

End TagSpec.

Module MainFixtures.
Import Fixtures.

Definition cfg : configuration :=
  {| params_json := Ok search; spreadsheet_env := Some "id" |}.

(** The morning sheet holds the listing of [item_sparse] only. *)
Definition service_seen : sheets_service :=
  service_with
    [("2024/05/10/AM",
      [["x"]; []; ["物件名"; "物件URL"];
       ["Maison A"; "https://suumo.jp/chintai/jnc_1/"]])].

(** A two-page catalog: [item_sparse] and [item_c], then [item_q1]. *)
Definition driver_two_pages : driver :=
  mk_driver (fun url =>
    if String.eqb url (SuumoScraper.page_url search 1)
    then Loaded (page_with [item_sparse; item_c] true)
    else Loaded (page_with [item_q1] false)).

End MainFixtures.

Example split_query :
  PyStr.split "?" "/chintai/123?query=1" = ["/chintai/123"; "query=1"].
Proof. reflexivity. Qed.

Example strip_ex : PyStr.strip "  7.5 万円
 " = "7.5 万円".
Proof. reflexivity. Qed.

Example str_ex : PyStr.str 12 = "12" /\ PyStr.str 0 = "0".
Proof. split; reflexivity. Qed.

(** ** Strings *)

Section SplitFacts.
Variable sep : ascii.

Lemma split_nonempty : forall s, PyStr.split sep s <> [].
Proof.
  induction s as [|c s IH]; simpl; [discriminate|].
  destruct (Ascii.eqb c sep); [discriminate|].
  destruct (PyStr.split sep s); [contradiction|discriminate].
Qed.

(** Without the separator, the first piece is the whole string. *)
Lemma split_first_none : forall s,
  PyStr.contains sep s = false -> PyStr.split_first sep s = s.
Proof.
  unfold PyStr.split_first.
  induction s as [|c s IH]; simpl; intros H; [reflexivity|].
  apply orb_false_iff in H as [Hc Hs]. rewrite Hc.
  specialize (IH Hs).
  destruct (PyStr.split sep s) as [|w ws] eqn:E.
  - exfalso. exact (split_nonempty s E).
  - now subst.
Qed.

(** The first piece ends at the first separator. *)
Lemma split_first_query : forall path query,
  PyStr.contains sep path = false ->
  PyStr.split_first sep (path ++ String sep query)%string = path.
Proof.
  unfold PyStr.split_first.
  induction path as [|c s IH]; simpl; intros query H.
  - now rewrite Ascii.eqb_refl.
  - apply orb_false_iff in H as [Hc Hs]. rewrite Hc.
    specialize (IH query Hs).
    destruct (PyStr.split sep (s ++ String sep query)%string) as [|w ws] eqn:E.
    + exfalso. exact (split_nonempty _ E).
    + now subst.
Qed.

(** Splitting and joining on the same character gives the string back. *)
Lemma join_split : forall s,
  PyStr.join (String sep EmptyString) (PyStr.split sep s) = s.
Proof.
  induction s as [|c s IH]; simpl; [reflexivity|].
  destruct (Ascii.eqb c sep) eqn:Hc.
  - apply Ascii.eqb_eq in Hc. subst c.
    destruct (PyStr.split sep s) as [|w ws] eqn:E.
    + exfalso. exact (split_nonempty _ E).
    + simpl in *. now rewrite IH.
  - destruct (PyStr.split sep s) as [|w ws] eqn:E.
    + exfalso. exact (split_nonempty _ E).
    + destruct ws as [|w' ws']; simpl in *; now rewrite <- IH.
Qed.
End SplitFacts.

(** ** Extractor *)

Module ParserFacts.
Import PropertyParser ParserSpec.

(** The URL of a fragment whose link is [href]. *)
Lemma url_of_href : forall it base link href,
  select_one it ".js-cassette_link_href" = Some link ->
  attr "href" (tag_attrs link) = Some href ->
  _get_property_url it base =
    let path := PyStr.split_first "?" href in
    if PyStr.startswith "/" path then ("https://suumo.jp" ++ path)%string
    else path.
Proof.
  intros it base link href Hl Hh. unfold _get_property_url.
  now rewrite Hl, Hh.
Qed.

Lemma parse_properties_items : forall items base sp,
  parse_properties items base sp = parse_items items base sp.
Proof. now destruct items. Qed.

Lemma parse_items_app : forall l1 l2 base sp,
  parse_items (l1 ++ l2) base sp
  = parse_items l1 base sp ++ parse_items l2 base sp.
Proof.
  induction l1 as [|it l1 IH]; intros l2 base sp; simpl; [reflexivity|].
  destruct (_extract_property_info it base sp); rewrite IH; reflexivity.
Qed.

Lemma extract_raises_iff : forall it base sp,
  _extract_property_info it base sp = Raised <->
  exists img, select_one it ".cassetteitem_object-item img" = Some img
              /\ attr "src" (tag_attrs img) = None.
Proof.
  intros it base sp. unfold _extract_property_info.
  destruct (select_one it ".cassetteitem_object-item img") as [img|] eqn:Hi.
  - destruct (attr "src" (tag_attrs img)) eqn:Hs.
    + split; [discriminate|]. intros [img' [E1 E2]].
      injection E1 as <-. congruence.
    + split; [|reflexivity]. intros _. now exists img.
  - split; [discriminate|]. intros [img' [E1 _]]. discriminate.
Qed.

Lemma extract_sentinels : forall it base sp r,
  _extract_property_info it base sp = Ok r ->
  Forall (fun f => select_one it (fst f) = None -> snd f r = NA)
         optional_fields.
Proof.
  intros it base sp r H. unfold _extract_property_info in H.
  destruct (select_one it ".cassetteitem_object-item img") as [img|] eqn:Hi.
  - destruct (attr "src" (tag_attrs img)) eqn:Hs; [|discriminate].
    injection H as <-.
    repeat constructor; simpl; intros Hn;
      try (unfold _get_text; now rewrite Hn);
      try (unfold _get_property_url; now rewrite Hn);
      try congruence; try (now rewrite Hn).
  - injection H as <-.
    repeat constructor; simpl; intros Hn;
      try (unfold _get_text; now rewrite Hn);
      try (unfold _get_property_url; now rewrite Hn);
      try reflexivity; try (now rewrite Hn).
Qed.

End ParserFacts.

(** C6. The detail URL of a fragment is its link with the query string
    removed and, when the path starts with "/", the origin
    "https://suumo.jp" put in front; so two fragments whose links differ
    only in the query string get the same URL. *)
Theorem property_url_canonical :
  forall (it1 it2 : item) (base1 base2 : string) (link1 link2 : tag)
         (path query1 query2 : string),
    select_one it1 ".js-cassette_link_href" = Some link1 ->
    select_one it2 ".js-cassette_link_href" = Some link2 ->
    PyStr.contains "?" path = false ->
    attr "href" (tag_attrs link1) = Some (path ++ "?" ++ query1)%string ->
    (attr "href" (tag_attrs link2) = Some (path ++ "?" ++ query2)%string
     \/ attr "href" (tag_attrs link2) = Some path) ->
    PropertyParser._get_property_url it1 base1
      = (if PyStr.startswith "/" path
         then ("https://suumo.jp" ++ path)%string else path)
    /\ PropertyParser._get_property_url it2 base2
       = PropertyParser._get_property_url it1 base1.
Proof.
  intros it1 it2 base1 base2 link1 link2 path q1 q2 H1 H2 Hp Hh1 Hh2.
  assert (E1 : PropertyParser._get_property_url it1 base1
      = (if PyStr.startswith "/" path
         then ("https://suumo.jp" ++ path)%string else path)).
  { rewrite (ParserFacts.url_of_href _ _ _ _ H1 Hh1). cbv zeta.
    change (path ++ "?" ++ q1)%string with (path ++ String "?" q1)%string.
    now rewrite split_first_query. }
  split; [exact E1|]. rewrite E1.
  destruct Hh2 as [Hh2|Hh2];
    rewrite (ParserFacts.url_of_href _ _ _ _ H2 Hh2); cbv zeta.
  - change (path ++ "?" ++ q2)%string with (path ++ String "?" q2)%string.
    now rewrite split_first_query.
  - now rewrite split_first_none.
Qed.

(** The example of the specification: "/chintai/123?query=1" becomes
    "https://suumo.jp/chintai/123", and so does the same path under
    another query. *)
Lemma property_url_canonical_witness :
  PropertyParser._get_property_url Fixtures.item_q1 SuumoScraper.base_url
    = "https://suumo.jp/chintai/123"
  /\ PropertyParser._get_property_url Fixtures.item_q2 SuumoScraper.base_url
     = PropertyParser._get_property_url Fixtures.item_q1
         SuumoScraper.base_url.
Proof.
  exact (property_url_canonical Fixtures.item_q1 Fixtures.item_q2
           SuumoScraper.base_url SuumoScraper.base_url
           (mk_tag "" [("href", "/chintai/123?query=1")])
           (mk_tag "" [("href", "/chintai/123?bc=100&page=2")])
           "/chintai/123" "query=1" "bc=100&page=2"
           eq_refl eq_refl eq_refl eq_refl (or_introl eq_refl)).
Defined.

(** C8. A field whose element is missing is filled with "N/A": the text
    getter returns it, no missing element makes the extraction raise (it
    raises only on an image element without [src]), every record produced
    has "N/A" in each field whose element is missing, and a fragment
    contributes its record, or nothing when its extraction raises, without
    any effect on the fragments before and after it. *)
Theorem missing_field_sentinel :
  forall (it : item) (base : string) (sp : params),
    (forall selector, select_one it selector = None ->
       PropertyParser._get_text it selector = "N/A")
    /\ (PropertyParser._extract_property_info it base sp = Raised <->
        exists img,
          select_one it ".cassetteitem_object-item img" = Some img
          /\ attr "src" (tag_attrs img) = None)
    /\ (forall r, PropertyParser._extract_property_info it base sp = Ok r ->
          Forall (fun f => select_one it (fst f) = None -> snd f r = "N/A")
                 ParserSpec.optional_fields)
    /\ (forall before after,
          PropertyParser.parse_properties (before ++ it :: after) base sp
          = PropertyParser.parse_properties before base sp
            ++ ParserSpec.contribution it base sp
            ++ PropertyParser.parse_properties after base sp).
Proof.
  intros it base sp. repeat split.
  - intros selector Hn. unfold PropertyParser._get_text. now rewrite Hn.
  - apply ParserFacts.extract_raises_iff.
  - apply ParserFacts.extract_raises_iff.
  - apply ParserFacts.extract_sentinels.
  - intros before after.
    rewrite !ParserFacts.parse_properties_items, ParserFacts.parse_items_app.
    f_equal. unfold ParserSpec.contribution. simpl.
    destruct (PropertyParser._extract_property_info it base sp); reflexivity.
Qed.

(** On a page with a sparse fragment, a raising one and a third one: the
    sparse fragment yields a record with "N/A" for its rent and its
    thumbnails, the raising one is skipped, the third is still read. *)
Lemma missing_field_sentinel_witness :
  (exists r,
     PropertyParser._extract_property_info Fixtures.item_sparse
       SuumoScraper.base_url [] = Ok r
     /\ p_name r = "Maison A" /\ p_rent r = "N/A" /\ p_images r = "N/A"
     /\ p_url r = "https://suumo.jp/chintai/jnc_1/")
  /\ List.length
       (PropertyParser.parse_properties
          ([Fixtures.item_sparse] ++ Fixtures.item_broken :: [Fixtures.item_c])
          SuumoScraper.base_url []) = 2.
Proof.
  destruct (missing_field_sentinel Fixtures.item_sparse SuumoScraper.base_url
              []) as [Htext _].
  destruct (missing_field_sentinel Fixtures.item_broken SuumoScraper.base_url
              []) as [_ [_ [_ Hskip]]].
  split.
  - eexists. split; [reflexivity|].
    split; [reflexivity|].
    split; [exact (Htext ".cassetteitem_price--rent" eq_refl)|].
    split; reflexivity.
  - rewrite (Hskip [Fixtures.item_sparse] [Fixtures.item_c]). reflexivity.
Defined.


(** ** Request URLs *)

Module StringFacts.

Lemma app_assoc_s : forall a b c : string,
  ((a ++ b) ++ c)%string = (a ++ (b ++ c))%string.
Proof.
  induction a as [|x a IH]; intros b c; simpl; [reflexivity|].
  now rewrite IH.
Qed.

Lemma app_length_s : forall a b : string,
  String.length (a ++ b)%string = String.length a + String.length b.
Proof.
  induction a as [|x a IH]; intros b; simpl; [reflexivity|].
  now rewrite IH.
Qed.

Lemma app_inv_head_s : forall q a b : string,
  (q ++ a)%string = (q ++ b)%string -> a = b.
Proof.
  induction q as [|x q IH]; intros a b H; simpl in H; [exact H|].
  injection H as H. now apply IH.
Qed.

Lemma app_inv_tail_s : forall a b t : string,
  (a ++ t)%string = (b ++ t)%string -> a = b.
Proof.
  induction a as [|x a IH]; intros b t H.
  - destruct b as [|y b]; [reflexivity|].
    apply (f_equal String.length) in H. simpl in H.
    rewrite app_length_s in H. lia.
  - destruct b as [|y b].
    + apply (f_equal String.length) in H. simpl in H.
      rewrite app_length_s in H. lia.
    + simpl in H. injection H as -> H. f_equal. now apply (IH b t).
Qed.

(** [str] is one-to-one and never empty. *)
Lemma str_inj : forall n m, PyStr.str n = PyStr.str m -> n = m.
Proof.
  intros n m H. unfold PyStr.str in H.
  apply DecimalNat.Unsigned.to_uint_inj.
  pose proof (NilEmpty.usu (Nat.to_uint n)) as Hn.
  pose proof (NilEmpty.usu (Nat.to_uint m)) as Hm.
  rewrite H in Hn. congruence.
Qed.

Lemma str_nonempty : forall n, PyStr.str n <> EmptyString.
Proof.
  intros n H. unfold PyStr.str in H.
  pose proof (NilEmpty.usu (Nat.to_uint n)) as Hn. rewrite H in Hn.
  simpl in Hn. injection Hn as Hn.
  pose proof (DecimalNat.Unsigned.of_to n) as Ho. rewrite <- Hn in Ho.
  simpl in Ho. subst n. discriminate.
Qed.

End StringFacts.

Module UrlBuild.
Import SuumoScraper.

(** Setting 'page' twice keeps the second value only. *)
Lemma dict_set_twice : forall (d : params) key v w,
  dict_set (dict_set d key v) key w = dict_set d key w.
Proof.
  induction d as [|[k x] rest IH]; intros key v w; simpl.
  - now rewrite String.eqb_refl.
  - destruct (String.eqb k key) eqn:E; simpl; rewrite E; [reflexivity|].
    now rewrite IH.
Qed.

(** Setting 'page' where it is, and where it is not. *)
Lemma dict_set_present : forall (before after : params) w x,
  (forall kv, In kv before -> fst kv <> "page") ->
  dict_set (before ++ ("page", w) :: after) "page" x
  = before ++ ("page", x) :: after.
Proof.
  induction before as [|[k y] rest IH]; intros after w x Hb;
    [reflexivity|].
  cbn [app dict_set]. destruct (String.eqb k "page") eqn:E.
  - apply String.eqb_eq in E. elim (Hb (k, y)); [now left|exact E].
  - f_equal. apply IH. intros kv Hin. apply Hb. now right.
Qed.

Lemma dict_set_absent : forall (before : params) x,
  (forall kv, In kv before -> fst kv <> "page") ->
  dict_set before "page" x = before ++ [("page", x)].
Proof.
  induction before as [|[k y] rest IH]; intros x Hb; [reflexivity|].
  cbn [app dict_set]. destruct (String.eqb k "page") eqn:E.
  - apply String.eqb_eq in E. elim (Hb (k, y)); [now left|exact E].
  - f_equal. apply IH. intros kv Hin. apply Hb. now right.
Qed.

(** The query of the parameters with 'page' set: the same entries before
    and after, whatever the page value. *)
Lemma query_params_page : forall d : params,
  exists before after,
    forall v, v <> EmptyString ->
      query_params (dict_set d "page" v)
      = before ++ ("page" ++ "=" ++ v)%string :: after.
Proof.
  induction d as [|[k x] rest [before [after IH]]].
  - exists [], []. intros v Hv. simpl. destruct v; [contradiction|reflexivity].
  - simpl. destruct (String.eqb k "page") eqn:E.
    + apply String.eqb_eq in E. subst k.
      exists [], (query_params rest). intros v Hv. simpl.
      destruct v; [contradiction|reflexivity].
    + destruct x as [|c x].
      * exists before, after. intros v Hv. simpl. now apply IH.
      * exists ((k ++ "=" ++ String c x)%string :: before), after.
        intros v Hv. simpl. now rewrite IH.
Qed.

(** Joining around one element: a fixed text before it and after it. *)
Lemma join_around : forall (before after : list string),
  exists pre post,
    forall x, PyStr.join "&" (before ++ x :: after)
              = (pre ++ x ++ post)%string.
Proof.
  induction before as [|a before IH]; intros after.
  - destruct after as [|b after].
    + exists EmptyString, EmptyString. intros x. simpl.
      clear. induction x as [|c x IH]; simpl; [reflexivity|now rewrite <- IH].
    + exists EmptyString, ("&" ++ PyStr.join "&" (b :: after))%string.
      intros x. reflexivity.
  - destruct (IH after) as [pre [post H]].
    exists (a ++ "&" ++ pre)%string, post. intros x.
    change ((a :: before) ++ x :: after) with (a :: (before ++ x :: after)).
    destruct (before ++ x :: after) as [|y ys] eqn:E.
    + destruct before; discriminate.
    + change (PyStr.join "&" (a :: y :: ys))
        with (a ++ "&" ++ PyStr.join "&" (y :: ys))%string.
      rewrite <- E, H. now rewrite !StringFacts.app_assoc_s.
Qed.

(** The URL of a page: a fixed text, the page number, a fixed text. *)
Lemma page_url_shape : forall p : params,
  exists pre post,
    forall n, page_url p n = (pre ++ PyStr.str n ++ post)%string.
Proof.
  intros p. destruct (query_params_page p) as [before [after Hq]].
  destruct (join_around before after) as [pre [post Hj]].
  exists (base_url ++ "?" ++ pre ++ "page=")%string, post. intros n.
  unfold page_url, current_params, build_search_url.
  rewrite (Hq _ (StringFacts.str_nonempty n)).
  destruct (before ++ ("page" ++ "=" ++ PyStr.str n)%string :: after)
    as [|y ys] eqn:E; [destruct before; discriminate|].
  rewrite <- E, Hj. change ("page" ++ "=" ++ PyStr.str n)%string
    with ("page=" ++ PyStr.str n)%string.
  now rewrite !StringFacts.app_assoc_s.
Qed.

End UrlBuild.

(** ** Crawl controller *)

Module CrawlFacts.
Import SuumoScraper.

Lemma requests_app : forall a b, requests (a ++ b) = requests a ++ requests b.
Proof.
  induction a as [|l a IH]; intros b; simpl; [reflexivity|].
  destruct l; simpl; rewrite ?IH; reflexivity.
Qed.

Lemma has_next_page_iff : forall html page,
  has_next_page html page = true <->
  soup_select_one html next_page_selector <> None
  \/ soup_select_one html (next_page_number_selector page) <> None.
Proof.
  intros html page. unfold has_next_page.
  destruct (soup_select_one html next_page_selector);
    destruct (soup_select_one html (next_page_number_selector page));
    split; intros H; try reflexivity; try discriminate;
    try (left; discriminate); try (right; discriminate).
  destruct H as [H|H]; contradiction.
Qed.

(** The three ways a loaded page ends the pass. *)
Lemma iteration_no_properties : forall d p page acc html,
  driver_get d (page_url p page) = Loaded html ->
  PropertyParser.parse_properties (soup_items html) base_url
    (current_params p page) = [] ->
  iteration d p page acc
  = ([LogAccess (page_url p page); LogNoProperties], Break acc).
Proof.
  intros d p page acc html Hd Hp. unfold iteration.
  fold (page_url p page). now rewrite Hd, Hp.
Qed.

Lemma iteration_last_page : forall d p page acc html,
  driver_get d (page_url p page) = Loaded html ->
  let properties :=
    PropertyParser.parse_properties (soup_items html) base_url
      (current_params p page) in
  properties <> [] ->
  has_next_page html page = false ->
  iteration d p page acc
  = ([LogAccess (page_url p page);
      LogPageCount page (List.length properties);
      LogTotal (List.length (acc ++ properties)); LogNoNextPage],
     Break (acc ++ properties)).
Proof.
  intros d p page acc html Hd properties Hp Hn. unfold iteration.
  fold (page_url p page). rewrite Hd. fold properties.
  destruct properties as [|r rs] eqn:E; [contradiction|].
  now rewrite Hn.
Qed.

Lemma iteration_next_page : forall d p page acc html,
  driver_get d (page_url p page) = Loaded html ->
  let properties :=
    PropertyParser.parse_properties (soup_items html) base_url
      (current_params p page) in
  properties <> [] ->
  has_next_page html page = true ->
  iteration d p page acc
  = ([LogAccess (page_url p page);
      LogPageCount page (List.length properties);
      LogTotal (List.length (acc ++ properties)); LogNextPage (page + 1)],
     Continue (acc ++ properties)).
Proof.
  intros d p page acc html Hd properties Hp Hn. unfold iteration.
  fold (page_url p page). rewrite Hd. fold properties.
  destruct properties as [|r rs] eqn:E; [contradiction|].
  now rewrite Hn.
Qed.

Lemma iteration_failed : forall d p page acc current_url title,
  driver_get d (page_url p page) = LoadFailed (Some (current_url, title)) ->
  iteration d p page acc
  = ([LogAccess (page_url p page); LogError; LogCurrentUrl current_url;
      LogTitle title], Break acc).
Proof.
  intros d p page acc cu t Hd. unfold iteration.
  fold (page_url p page). now rewrite Hd.
Qed.

(** Every pass starts by requesting the URL of its page, once. *)
Lemma iteration_request : forall d p page acc,
  requests (fst (iteration d p page acc)) = [page_url p page].
Proof.
  intros d p page acc. unfold iteration. fold (page_url p page).
  destruct (driver_get d (page_url p page)) as [html|[[cu t]|]];
    [|reflexivity|reflexivity].
  destruct (PropertyParser.parse_properties _ _ _); [reflexivity|].
  destruct (has_next_page html page); reflexivity.
Qed.

Lemma scrape_loop_first_request : forall fuel d p page acc,
  exists rest,
    requests (fst (scrape_loop (S fuel) d p page acc))
    = page_url p page :: rest.
Proof.
  intros fuel d p page acc. simpl.
  pose proof (iteration_request d p page acc) as Hr.
  destruct (iteration d p page acc) as [lines [a|a|]]; simpl in Hr.
  - destruct (scrape_loop fuel d p (S page) a) as [more r]. simpl.
    rewrite requests_app, Hr. now eexists.
  - simpl. rewrite requests_app, Hr. now eexists.
  - simpl. rewrite Hr. now eexists.
Qed.

(** A pass that continues, in terms of [continues] and [page_properties]. *)
Lemma iteration_continues : forall d p page acc,
  continues d p page = true ->
  exists lines,
    iteration d p page acc
    = (lines, Continue (acc ++ page_properties d p page))
    /\ requests lines = [page_url p page]
    /\ ~ In LogError lines.
Proof.
  intros d p page acc Hc. unfold continues in Hc.
  unfold page_properties in *.
  destruct (driver_get d (page_url p page)) as [html|] eqn:Hd;
    [|discriminate].
  destruct (PropertyParser.parse_properties (soup_items html) base_url
              (current_params p page)) as [|r rs] eqn:Hp; [discriminate|].
  eexists. split.
  - pose proof (iteration_next_page d p page acc html Hd) as H.
    cbv zeta in H. rewrite Hp in H. apply H; [discriminate|exact Hc].
  - split; [reflexivity|].
    simpl. intros [H|[H|[H|[H|[]]]]]; discriminate.
Qed.

(** [m] continuing pages from [page] on: the loop requests each of them
    once, in order, adds their records, and goes on from page [page + m]. *)
Lemma scrape_loop_continues : forall m d p page acc fuel,
  (forall k, page <= k < page + m -> continues d p k = true) ->
  exists lines,
    scrape_loop (m + fuel) d p page acc
    = (lines ++ fst (scrape_loop fuel d p (page + m)
                       (acc ++ flat_map (page_properties d p) (seq page m))),
       snd (scrape_loop fuel d p (page + m)
              (acc ++ flat_map (page_properties d p) (seq page m))))
    /\ requests lines = map (page_url p) (seq page m)
    /\ ~ In LogError lines.
Proof.
  induction m as [|m IH]; intros d p page acc fuel Hc.
  - exists []. simpl. rewrite Nat.add_0_r, app_nil_r.
    split; [now destruct (scrape_loop fuel d p page acc)|].
    split; [reflexivity|intros []].
  - destruct (iteration_continues d p page acc) as [l1 [E1 [R1 N1]]].
    { apply Hc. lia. }
    destruct (IH d p (S page) (acc ++ page_properties d p page) fuel)
      as [l2 [E2 [R2 N2]]].
    { intros k Hk. apply Hc. lia. }
    exists (l1 ++ l2). simpl. rewrite E1, E2.
    replace (S page + m) with (page + S m) by lia.
    rewrite <- !app_assoc. split; [reflexivity|].
    split.
    + now rewrite requests_app, R1, R2.
    + intros H. apply in_app_or in H as [H|H]; contradiction.
Qed.

(** When the handler cannot read the driver either, its exception leaves
    [scrape_properties]: nothing is returned. *)
Lemma handler_failure_propagates : forall fuel d p page acc,
  driver_get d (page_url p page) = LoadFailed None ->
  snd (scrape_loop (S fuel) d p page acc) = Some Raised.
Proof.
  intros fuel d p page acc Hd. cbn [scrape_loop]. unfold iteration.
  fold (page_url p page). now rewrite Hd.
Qed.

(** A rendered page either shows no listing fragment, and the wait
    raises, or is handed to the parser. *)
Lemma rendered_cases : forall html cu t,
  (soup_items html = []
   /\ DriverManager.rendered html cu t = LoadFailed (Some (cu, t)))
  \/ (soup_items html <> []
      /\ DriverManager.rendered html cu t = Loaded html).
Proof.
  intros html cu t. unfold DriverManager.rendered,
    DriverManager.wait_for_element.
  destruct (soup_items html); [left|right]; split;
    (reflexivity || discriminate).
Qed.

(** One pass of the loop. *)
Lemma scrape_loop_S : forall fuel d p page acc,
  scrape_loop (S fuel) d p page acc
  = match iteration d p page acc with
    | (lines, Continue all_properties') =>
        let '(more, r) :=
          scrape_loop fuel d p (S page) all_properties' in
        (lines ++ more, r)
    | (lines, Break all_properties') =>
        (lines ++ [LogDone (List.length all_properties')],
         Some (Ok all_properties'))
    | (lines, Propagate) => (lines, Some Raised)
    end.
Proof. reflexivity. Qed.

End CrawlFacts.

(** C4. After the browser has rendered page n, the loop asks for the
    next page, the URL with 'page' set to n + 1, if and only if the page
    gave at least one record and one of the two pagination selectors (the
    次へ link, the link to page n + 1) matched; otherwise page n is the
    last request and the records gathered so far are returned as the
    value of the call.  A page that holds listing fragments ends the crawl
    without any error line.  A page that holds no listing fragment at all
    ends it too, whatever its pagination shows, but through the exception
    handler: the wait for a fragment times out and the failure is
    printed. *)
Theorem next_page_requested_iff :
  forall (d : driver) (p : params) (html : page) (n : nat)
         (acc : list property_info) (fuel : nat)
         (current_url title : string),
    let url := fun k =>
      SuumoScraper.build_search_url
        (SuumoScraper.dict_set p "page" (PyStr.str k)) in
    driver_get d (url n) = DriverManager.rendered html current_url title ->
    let properties :=
      PropertyParser.parse_properties (soup_items html)
        "https://suumo.jp/jj/chintai/ichiran/FR301FC001/"
        (SuumoScraper.dict_set p "page" (PyStr.str n)) in
    let next_link :=
      soup_select_one html
        (".pagination-parts a:contains(" ++ dq ++ "次へ" ++ dq ++ ")")%string
        <> None
      \/ soup_select_one html
           (".pagination-parts li a[href*=" ++ dq ++ "page="
            ++ PyStr.str (n + 1) ++ dq ++ "]")%string
           <> None in
    let run := SuumoScraper.scrape_loop (S (S fuel)) d p n acc in
    (exists rest, SuumoScraper.requests (fst run) = url n :: rest)
    /\ (nth_error (SuumoScraper.requests (fst run)) 1 = Some (url (n + 1))
        <-> properties <> [] /\ next_link)
    /\ url (n + 1) <> url n
    /\ (properties = [] ->
        snd run = Some (Ok acc)
        /\ SuumoScraper.requests (fst run) = [url n])
    /\ (properties <> [] -> ~ next_link ->
        snd run = Some (Ok (acc ++ properties))
        /\ SuumoScraper.requests (fst run) = [url n])
    /\ (soup_items html <> [] -> ~ (properties <> [] /\ next_link) ->
        ~ In LogError (fst run))
    /\ (soup_items html = [] ->
        properties = [] /\ In LogError (fst run)).
Proof.
  intros d p html page acc fuel cu t url Hd properties next_link run.
  assert (Hurl : url = SuumoScraper.page_url p) by reflexivity.
  assert (Hprops : properties
                   = PropertyParser.parse_properties (soup_items html)
                       SuumoScraper.base_url
                       (SuumoScraper.current_params p page))
    by reflexivity.
  assert (Hnext : next_link <-> SuumoScraper.has_next_page html page = true)
    by (symmetry; apply CrawlFacts.has_next_page_iff).
  clearbody url properties next_link. subst url.
  assert (Hneq : SuumoScraper.page_url p (page + 1)
                 <> SuumoScraper.page_url p page).
  { destruct (UrlBuild.page_url_shape p) as [pre [post H]].
    rewrite !H. intros E.
    apply StringFacts.app_inv_head_s in E.
    apply StringFacts.app_inv_tail_s in E.
    apply StringFacts.str_inj in E. lia. }
  assert (Hno : ~ next_link ->
            SuumoScraper.has_next_page html page = false).
  { intros Hn. destruct (SuumoScraper.has_next_page html page);
      [|reflexivity]. elim Hn. now apply Hnext. }
  split; [apply CrawlFacts.scrape_loop_first_request|].
  destruct (CrawlFacts.rendered_cases html cu t) as [[Hi Hr]|[Hi Hr]];
    rewrite Hr in Hd.
  - (* no fragment: the wait times out *)
    assert (Hp : properties = []) by (now rewrite Hprops, Hi).
    assert (Hrun : run = ([LogAccess (SuumoScraper.page_url p page);
                           LogError; LogCurrentUrl cu; LogTitle t;
                           LogDone (List.length acc)], Some (Ok acc))).
    { unfold run. cbn [SuumoScraper.scrape_loop].
      now rewrite (CrawlFacts.iteration_failed d p page acc cu t Hd). }
    rewrite Hrun. cbn [fst snd SuumoScraper.requests nth_error].
    split.
    { split; [discriminate|]. intros [Hne _]. now elim Hne. }
    split; [exact Hneq|].
    split; [intros _; split; reflexivity|].
    split; [intros Hne; now elim Hne|].
    split; [intros Hne; now elim Hne|].
    intros _. split; [exact Hp|]. simpl. auto.
  - assert (Hstop1 : properties = [] ->
              run = ([LogAccess (SuumoScraper.page_url p page);
                      LogNoProperties; LogDone (List.length acc)],
                     Some (Ok acc))).
    { intros Hp. unfold run. cbn [SuumoScraper.scrape_loop].
      rewrite Hprops in Hp.
      now rewrite (CrawlFacts.iteration_no_properties d p page acc html
                     Hd Hp). }
    assert (Hstop2 : properties <> [] ->
              SuumoScraper.has_next_page html page = false ->
              run = ([LogAccess (SuumoScraper.page_url p page);
                      LogPageCount page (List.length properties);
                      LogTotal (List.length (acc ++ properties));
                      LogNoNextPage;
                      LogDone (List.length (acc ++ properties))],
                     Some (Ok (acc ++ properties)))).
    { intros Hp Hn. unfold run. cbn [SuumoScraper.scrape_loop].
      rewrite Hprops in *.
      now rewrite (CrawlFacts.iteration_last_page d p page acc html Hd
                     Hp Hn). }
    split.
    { split.
      - intros Hreq. destruct properties as [|r rs] eqn:Ep.
        + rewrite (Hstop1 eq_refl) in Hreq. discriminate.
        + split; [discriminate|]. apply Hnext.
          destruct (SuumoScraper.has_next_page html page) eqn:Hn;
            [reflexivity|].
          rewrite Hstop2 in Hreq; [discriminate|discriminate|reflexivity].
      - intros [Hp Hn]. apply Hnext in Hn.
        unfold run. rewrite CrawlFacts.scrape_loop_S.
        rewrite Hprops in Hp.
        rewrite (CrawlFacts.iteration_next_page d p page acc html Hd Hp Hn).
        destruct (CrawlFacts.scrape_loop_first_request fuel d p (S page)
                    (acc ++ PropertyParser.parse_properties (soup_items html)
                       SuumoScraper.base_url
                       (SuumoScraper.current_params p page)))
          as [rest Hrest].
        destruct (SuumoScraper.scrape_loop (S fuel) d p (S page) _)
          as [more r].
        cbn [fst] in *. rewrite CrawlFacts.requests_app, Hrest.
        replace (page + 1) with (S page) by lia. reflexivity. }
    split; [exact Hneq|].
    split; [intros Hp; rewrite (Hstop1 Hp); split; reflexivity|].
    split.
    { intros Hp Hn. rewrite (Hstop2 Hp (Hno Hn)). split; reflexivity. }
    split.
    { intros _ Hn. destruct properties as [|r rs] eqn:Ep.
      - rewrite (Hstop1 eq_refl). simpl.
        intros [H|[H|[H|[]]]]; discriminate.
      - rewrite Hstop2; [|discriminate|].
        + simpl. intros [H|[H|[H|[H|[H|[]]]]]]; discriminate.
        + apply Hno. intros Hl'. apply Hn. split; [discriminate|exact Hl']. }
    intros Hi'. contradiction.
Qed.

(** A catalog that ends with an empty page: after page 1, which has a
    record and a 次へ link, the loop asks for page 2 (the URL with
    page=2); page 2 holds no listing fragment, so the crawl stops there
    with the one record of page 1, after printing the error. *)
Lemma next_page_requested_iff_witness :
  nth_error
    (SuumoScraper.requests
       (fst (SuumoScraper.scrape_loop 3 Fixtures.driver_no_listing
               Fixtures.search 1 [])))
    1
  = Some "https://suumo.jp/jj/chintai/ichiran/FR301FC001/?ar=030&bs=040&page=2"
  /\ In LogError
       (fst (SuumoScraper.scrape_loop 2 Fixtures.driver_no_listing
               Fixtures.search 2
               (SuumoScraper.page_properties Fixtures.driver_no_listing
                  Fixtures.search 1)))
  /\ snd (SuumoScraper.scrape_loop 2 Fixtures.driver_no_listing
            Fixtures.search 2
            (SuumoScraper.page_properties Fixtures.driver_no_listing
               Fixtures.search 1))
     = Some (Ok (SuumoScraper.page_properties Fixtures.driver_no_listing
                   Fixtures.search 1)).
Proof.
  destruct (next_page_requested_iff Fixtures.driver_no_listing
              Fixtures.search (Fixtures.page_with [Fixtures.item_sparse] true)
              1 [] 1 (SuumoScraper.page_url Fixtures.search 1) "SUUMO"
              eq_refl) as [_ [H1 _]].
  destruct (next_page_requested_iff Fixtures.driver_no_listing
              Fixtures.search (Fixtures.page_with [] true)
              2 (SuumoScraper.page_properties Fixtures.driver_no_listing
                   Fixtures.search 1)
              0 (SuumoScraper.page_url Fixtures.search 2) "SUUMO" eq_refl)
    as [_ [_ [_ [H2 [_ [_ H3]]]]]].
  split; [|split].
  - apply H1. split; [discriminate|left; discriminate].
  - apply H3. reflexivity.
  - apply H2. reflexivity.
Defined.

(** C5, as far as the code goes: when the request for page n raises and
    the handler can still read the driver, no further request is made
    (pages 1..n are requested once each, in order), the records of pages
    1..n-1 are returned as the value of the call, and the failure is
    printed. *)
Theorem fetch_failure_stops_crawl :
  forall (d : driver) (p : params) (n fuel : nat) (current_url title : string),
    1 <= n -> n <= fuel ->
    (forall k, 1 <= k < n -> SuumoScraper.continues d p k = true) ->
    driver_get d (SuumoScraper.page_url p n)
      = LoadFailed (Some (current_url, title)) ->
    snd (SuumoScraper.scrape_properties fuel d p)
      = Some (Ok (flat_map (SuumoScraper.page_properties d p) (seq 1 (n - 1))))
    /\ SuumoScraper.requests (fst (SuumoScraper.scrape_properties fuel d p))
       = map (SuumoScraper.page_url p) (seq 1 n)
    /\ In LogError (fst (SuumoScraper.scrape_properties fuel d p)).
Proof.
  intros d p n fuel cu t Hn Hf Hc Hd.
  unfold SuumoScraper.scrape_properties.
  replace fuel with ((n - 1) + S (fuel - n)) by lia.
  destruct (CrawlFacts.scrape_loop_continues (n - 1) d p 1 []
              (S (fuel - n))) as [lines [E [R _]]].
  { intros k Hk. apply Hc. lia. }
  rewrite E. clear E.
  replace (1 + (n - 1)) with n by lia.
  cbn [SuumoScraper.scrape_loop].
  rewrite (CrawlFacts.iteration_failed d p n _ cu t Hd).
  cbn [fst snd app]. split; [reflexivity|]. split.
  - rewrite CrawlFacts.requests_app, R. simpl.
    replace n with ((n - 1) + 1) at 3 by lia.
    rewrite seq_app, map_app. simpl.
    now replace (S (n - 1)) with n by lia.
  - apply in_or_app. right. simpl. auto.
Qed.

(** The fixture crawl whose second request fails. *)
Lemma fetch_failure_stops_crawl_witness :
  snd (SuumoScraper.scrape_properties 5 Fixtures.driver_failing
         Fixtures.search)
    = Some (Ok (SuumoScraper.page_properties Fixtures.driver_failing
                  Fixtures.search 1 ++ []))
  /\ SuumoScraper.requests
       (fst (SuumoScraper.scrape_properties 5 Fixtures.driver_failing
               Fixtures.search))
     = [SuumoScraper.page_url Fixtures.search 1;
        SuumoScraper.page_url Fixtures.search 2]
  /\ In LogError
       (fst (SuumoScraper.scrape_properties 5 Fixtures.driver_failing
               Fixtures.search)).
Proof.
  apply (fetch_failure_stops_crawl Fixtures.driver_failing Fixtures.search
           2 5 (SuumoScraper.page_url Fixtures.search 2) "SUUMO").
  - lia.
  - lia.
  - intros k Hk. assert (k = 1) by lia. subst k. reflexivity.
  - reflexivity.
Defined.

(** C5 as stated does not hold: the value returned after a failed request
    is the value an undisturbed crawl returns, so the caller is not told.
    Here the request for page 2 fails in one crawl and no request fails in
    the other, and both calls return the same list. *)
Lemma fetch_failure_not_returned :
  CrawlSpec.fetch_fails Fixtures.driver_failing Fixtures.search 2
  /\ CrawlSpec.never_fails Fixtures.driver_ending
  /\ snd (SuumoScraper.scrape_properties 5 Fixtures.driver_failing
            Fixtures.search)
     = snd (SuumoScraper.scrape_properties 5 Fixtures.driver_ending
              Fixtures.search).
Proof.
  split; [|split].
  - eexists. reflexivity.
  - intros url. unfold Fixtures.driver_ending. simpl.
    destruct (String.eqb url _); eexists; reflexivity.
  - reflexivity.
Qed.


(** ** Diff against the previous run *)

Module DiffFacts.
Import SheetsManager DiffSpec.

Lemma url_in_iff : forall url previous_urls,
  url_in url previous_urls = true <-> In (Some url) previous_urls.
Proof.
  intros url urls. unfold url_in. rewrite existsb_exists. split.
  - intros [[x|] [Hin Heq]]; simpl in Heq; [|discriminate].
    apply String.eqb_eq in Heq. now subst.
  - intros Hin. exists (Some url). split; [exact Hin|].
    simpl. apply String.eqb_refl.
Qed.

Lemma tag_new_url : forall urls p, p_url (tag_new urls p) = p_url p.
Proof. intros urls p. unfold tag_new. now destruct (url_in _ _). Qed.

Lemma tag_new_idem : forall urls p,
  tag_new urls (tag_new urls p) = tag_new urls p.
Proof.
  intros urls p. unfold tag_new.
  destruct (url_in (p_url p) urls) eqn:E; [now rewrite E|].
  simpl. now rewrite E.
Qed.

Lemma set_is_new_idem : forall p, set_is_new (set_is_new p) = set_is_new p.
Proof. reflexivity. Qed.

Lemma tag_new_nil : forall p, tag_new [] p = set_is_new p.
Proof. reflexivity. Qed.

(** The loop leaves the records tagged by [tag_new]. *)
Lemma mark_loop_records : forall urls properties i,
  snd (mark_loop urls i properties) = map (tag_new urls) properties.
Proof.
  induction properties as [|p rest IH]; intros i; simpl; [reflexivity|].
  specialize (IH (S i)).
  destruct (mark_loop urls (S i) rest) as [rows rest']. simpl in IH.
  unfold tag_new at 1.
  destruct (url_in (p_url p) urls); simpl; now rewrite IH.
Qed.

(** It collects one row per record whose URL is absent. *)
Lemma mark_loop_rows : forall urls properties i,
  List.length (fst (mark_loop urls i properties))
  = List.length (filter (is_absent urls) properties).
Proof.
  induction properties as [|p rest IH]; intros i; simpl; [reflexivity|].
  specialize (IH (S i)).
  destruct (mark_loop urls (S i) rest) as [rows rest']. simpl in IH.
  unfold is_absent at 1.
  destruct (url_in (p_url p) urls); simpl; now rewrite IH.
Qed.

(** The rows depend on the URLs only, which tagging does not change. *)
Lemma mark_loop_rows_tagged : forall urls properties i,
  fst (mark_loop urls i (map (tag_new urls) properties))
  = fst (mark_loop urls i properties).
Proof.
  induction properties as [|p rest IH]; intros i; simpl; [reflexivity|].
  specialize (IH (S i)).
  destruct (mark_loop urls (S i) rest) as [rows rest'].
  destruct (mark_loop urls (S i) (map (tag_new urls) rest)) as [rows2 rest2].
  simpl in IH. subst rows2. rewrite tag_new_url.
  now destruct (url_in (p_url p) urls).
Qed.

Lemma mark_loop_eq : forall urls properties i,
  mark_loop urls i properties
  = (fst (mark_loop urls i properties), map (tag_new urls) properties).
Proof.
  intros urls properties i. rewrite <- (mark_loop_records urls properties i).
  apply surjective_pairing.
Qed.

Lemma positions_nil : forall name cols i,
  Pandas.positions name cols i = [] <-> existsb (String.eqb name) cols = false.
Proof.
  intros name cols. induction cols as [|c cols IH]; intros i; simpl.
  - split; reflexivity.
  - destruct (String.eqb name c); simpl.
    + split; discriminate.
    + apply IH.
Qed.

(** A frame whose URL column can be read has that column. *)
Lemma column_has : forall df name l,
  Pandas.column_tolist df name = Ok l -> Pandas.has_column df name = true.
Proof.
  intros df name l H. unfold Pandas.column_tolist in H.
  unfold Pandas.has_column.
  destruct (existsb (String.eqb name) (columns df)) eqn:E; [reflexivity|].
  apply positions_nil with (i := 0) in E. rewrite E in H. discriminate.
Qed.

(** An empty frame with a readable column has no rows, hence no URLs. *)
Lemma column_of_empty : forall df name l,
  Pandas.column_tolist df name = Ok l -> Pandas.empty df = true -> l = [].
Proof.
  intros df name l H He. unfold Pandas.column_tolist in H.
  unfold Pandas.empty in He.
  destruct (columns df) as [|c cols] eqn:Ec; [discriminate|].
  destruct (rows df) as [|r rs]; [|discriminate].
  destruct (Pandas.positions name (c :: cols) 0) as [|i [|j js]];
    try discriminate.
  now injection H as <-.
Qed.

Lemma filter_absent_nil : forall properties,
  filter (is_absent []) properties = properties.
Proof.
  induction properties as [|p rest IH]; simpl; [reflexivity|now rewrite IH].
Qed.

(** [_mark_new_properties] when the URL column is there and the
    formatting request succeeds. *)
Lemma mark_new_properties_ok : forall svc sid shid properties df urls,
  Pandas.column_tolist df URL_KEY = Ok urls ->
  highlight_succeeds svc sid shid ->
  _mark_new_properties svc sid shid properties df
  = (Ok (List.length (filter (is_absent urls) properties)),
     map (tag_new urls) properties).
Proof.
  intros svc sid shid properties df urls Hc Hh.
  unfold _mark_new_properties.
  rewrite (column_has _ _ _ Hc), Hc, (mark_loop_eq urls properties 4).
  pose proof (mark_loop_rows urls properties 4) as Hlen.
  destruct (fst (mark_loop urls 4 properties)) as [|r rs] eqn:E.
  - now rewrite <- Hlen.
  - unfold _highlight_rows. rewrite Hh. now rewrite <- Hlen.
Qed.

(** [_mark_all_as_new] when the formatting request succeeds. *)
Lemma mark_all_as_new_ok : forall svc sid shid properties,
  highlight_succeeds svc sid shid ->
  _mark_all_as_new svc sid shid properties
  = (Ok (List.length properties), map set_is_new properties).
Proof.
  intros svc sid shid properties Hh. unfold _mark_all_as_new.
  destruct properties as [|p rest]; [reflexivity|].
  cbn [List.length seq]. unfold _highlight_rows. rewrite Hh.
  cbn [List.length]. now rewrite length_seq.
Qed.


Lemma untagged_count : forall urls properties,
  Forall untagged properties ->
  List.length (filter get_is_new (map (tag_new urls) properties))
  = List.length (filter (is_absent urls) properties).
Proof.
  intros urls properties H. induction H as [|p rest Hp _ IH];
    simpl; [reflexivity|].
  unfold tag_new at 1, is_absent at 1.
  destruct (url_in (p_url p) urls); simpl.
  - unfold get_is_new. rewrite Hp. exact IH.
  - now rewrite IH.
Qed.

(** A sheet that cannot be read, has no values, or has fewer than three
    rows gives no previous data. *)
Lemma get_previous_data_not_found : forall svc sid target,
  match values_get svc sid (target ++ "!A:Z")%string with
  | GetRaised | GetNoValues => True
  | GetValues values => List.length values < 3
  end ->
  _get_previous_data svc sid target = None.
Proof.
  intros svc sid target H. unfold _get_previous_data.
  destruct (values_get svc sid (target ++ "!A:Z")%string) as [| |values];
    try reflexivity.
  destruct (nth_error values 2) eqn:E; [|reflexivity].
  assert (2 < List.length values) by (apply nth_error_Some; congruence).
  lia.
Qed.

(** The frame starts at the header row: [values[2:]] keeps the row of
    column labels as its first data row, so the column read for the URLs
    starts with the label itself. *)
Lemma get_previous_data_keeps_header : forall svc sid target values header df,
  values_get svc sid (target ++ "!A:Z")%string = GetValues values ->
  nth_error values 2 = Some header ->
  _get_previous_data svc sid target = Some df ->
  columns df = header
  /\ exists rest, rows df = map Some header :: rest.
Proof.
  intros svc sid target values header df Hv Hh H.
  unfold _get_previous_data in H. rewrite Hv, Hh in H.
  destruct values as [|r0 [|r1 [|r2 more]]]; try discriminate.
  simpl in Hh. injection Hh as ->. cbn [skipn] in H.
  unfold Pandas.DataFrame_of in H.
  destruct (existsb _ (header :: more)); [discriminate|].
  injection H as <-. cbn [columns rows map]. split; [reflexivity|].
  eexists. f_equal. clear. induction header as [|x xs IH]; simpl;
    [reflexivity|now rewrite IH].
Qed.

End DiffFacts.




Module IdempotenceFacts.
Import SheetsManager DiffSpec.

Lemma map_tag_new_idem : forall urls properties,
  map (tag_new urls) (map (tag_new urls) properties)
  = map (tag_new urls) properties.
Proof.
  intros urls properties. rewrite map_map. apply map_ext.
  intros p. apply DiffFacts.tag_new_idem.
Qed.

Lemma mark_loop_tagged : forall urls properties i,
  mark_loop urls i (map (tag_new urls) properties)
  = mark_loop urls i properties.
Proof.
  intros urls properties i.
  rewrite (DiffFacts.mark_loop_eq urls (map (tag_new urls) properties) i).
  rewrite (DiffFacts.mark_loop_eq urls properties i).
  now rewrite DiffFacts.mark_loop_rows_tagged, map_tag_new_idem.
Qed.

Lemma mark_new_properties_idem : forall svc sid shid properties df,
  _mark_new_properties svc sid shid
    (snd (_mark_new_properties svc sid shid properties df)) df
  = _mark_new_properties svc sid shid properties df.
Proof.
  intros svc sid shid properties df. unfold _mark_new_properties.
  destruct (Pandas.has_column df URL_KEY); [|reflexivity].
  destruct (Pandas.column_tolist df URL_KEY) as [urls|]; [|reflexivity].
  assert (Hsnd : snd (let '(rows, properties') := mark_loop urls 4 properties in
                      match rows with
                      | [] => (Ok 0, properties')
                      | _ :: _ =>
                          match _highlight_rows svc sid shid rows with
                          | Ok _ => (Ok (List.length rows), properties')
                          | Raised => (Raised, properties')
                          end
                      end) = map (tag_new urls) properties).
  { rewrite (DiffFacts.mark_loop_eq urls properties 4).
    destruct (fst (mark_loop urls 4 properties)); [reflexivity|].
    now destruct (_highlight_rows svc sid shid (n :: l)). }
  rewrite Hsnd. now rewrite mark_loop_tagged.
Qed.

Lemma mark_all_as_new_idem : forall svc sid shid properties,
  _mark_all_as_new svc sid shid
    (snd (_mark_all_as_new svc sid shid properties))
  = _mark_all_as_new svc sid shid properties.
Proof.
  intros svc sid shid properties. unfold _mark_all_as_new.
  destruct (seq 4 (List.length properties)) as [|r rs] eqn:Es;
    [cbn [snd]; now rewrite Es|].
  destruct (_highlight_rows svc sid shid (r :: rs)) eqn:Eh; cbn [snd].
  - rewrite length_map, Es, Eh, map_map. reflexivity.
  - now rewrite Es, Eh.
Qed.

End IdempotenceFacts.

(** C7. Running the comparison a second time, on the records as the first
    run left them and against the same previous data, returns the same
    count (or fails the same way) and leaves every tag as it is. *)
Theorem diff_idempotent :
  forall (svc : sheets_service) (c : clock) (spreadsheet_id : string)
         (sheet_id : Z) (properties : list property_info)
         (previous_data : option DataFrame),
    (let once :=
       SheetsManager.mark_against svc spreadsheet_id sheet_id properties
         previous_data in
     SheetsManager.mark_against svc spreadsheet_id sheet_id (snd once)
       previous_data = once)
    /\ (let once :=
          SheetsManager._handle_new_properties svc c spreadsheet_id sheet_id
            properties in
        SheetsManager._handle_new_properties svc c spreadsheet_id sheet_id
          (snd once) = once
        /\ map SheetsManager.get_is_new (snd once)
           = map SheetsManager.get_is_new
               (snd (SheetsManager._handle_new_properties svc c
                       spreadsheet_id sheet_id (snd once)))).
Proof.
  intros svc c sid shid properties previous_data.
  assert (H : forall pd,
            SheetsManager.mark_against svc sid shid
              (snd (SheetsManager.mark_against svc sid shid properties pd)) pd
            = SheetsManager.mark_against svc sid shid properties pd).
  { intros pd. unfold SheetsManager.mark_against.
    destruct pd as [df|].
    - destruct (Pandas.empty df).
      + apply IdempotenceFacts.mark_all_as_new_idem.
      + apply IdempotenceFacts.mark_new_properties_idem.
    - apply IdempotenceFacts.mark_all_as_new_idem. }
  split; [apply H|].
  unfold SheetsManager._handle_new_properties. cbv zeta.
  rewrite H. split; reflexivity.
Qed.

(** ** Notification *)

Module NotifyFacts.
Import SheetsManager DiffSpec.

Lemma filter_nonempty_exists : forall (A : Type) (f : A -> bool) l,
  0 < List.length (filter f l) -> exists x, In x l /\ f x = true.
Proof.
  intros A f l H. destruct (filter f l) as [|x xs] eqn:E;
    [simpl in H; lia|].
  exists x. apply filter_In. rewrite E. now left.
Qed.

Lemma in_firstn : forall (A : Type) (n : nat) (l : list A) (x : A),
  In x (firstn n l) -> In x l.
Proof.
  intros A n l x H. rewrite <- (firstn_skipn n l).
  apply in_or_app. now left.
Qed.

(** A positive count from the loop means some record got its tag. *)
Lemma mark_new_properties_tagged : forall svc sid shid properties df n l,
  _mark_new_properties svc sid shid properties df = (Ok n, l) ->
  0 < n -> exists q, In q l /\ get_is_new q = true.
Proof.
  intros svc sid shid properties df n l H Hn.
  unfold _mark_new_properties in H.
  destruct (Pandas.has_column df URL_KEY);
    [|injection H as <- _; lia].
  destruct (Pandas.column_tolist df URL_KEY) as [urls|]; [|discriminate].
  rewrite (DiffFacts.mark_loop_eq urls properties 4) in H.
  pose proof (DiffFacts.mark_loop_rows urls properties 4) as Hlen.
  destruct (fst (mark_loop urls 4 properties)) as [|r rs] eqn:E.
  - injection H as <- _. lia.
  - destruct (_highlight_rows svc sid shid (r :: rs)); [|discriminate].
    injection H as _ <-.
    assert (Hpos : 0 < List.length (filter (is_absent urls) properties))
      by (rewrite <- Hlen; simpl; lia).
    destruct (filter_nonempty_exists _ _ _ Hpos) as [p0 [Hin Hab]].
    exists (tag_new urls p0). split; [now apply in_map|].
    unfold tag_new. unfold is_absent in Hab.
    apply negb_true_iff in Hab. now rewrite Hab.
Qed.

Lemma mark_all_as_new_tagged : forall svc sid shid properties n l,
  _mark_all_as_new svc sid shid properties = (Ok n, l) ->
  0 < n -> exists q, In q l /\ get_is_new q = true.
Proof.
  intros svc sid shid properties n l H Hn. unfold _mark_all_as_new in H.
  destruct properties as [|p0 rest]; [injection H as <- _; lia|].
  cbn [List.length seq] in H.
  destruct (_highlight_rows svc sid shid _); [|discriminate].
  injection H as _ <-. exists (set_is_new p0). split; [now left|reflexivity].
Qed.

Lemma export_properties_tagged : forall svc c0 c properties sid url n l,
  export_properties svc c0 c properties sid url = (n, l) ->
  0 < n -> exists q, In q l /\ get_is_new q = true.
Proof.
  intros svc c0 c properties sid url n l H Hn. unfold export_properties in H.
  destruct properties as [|p0 rest]; [injection H as <- _; lia|].
  destruct (_create_new_sheet svc sid (_get_sheet_name c0)) as [shid|];
    [|injection H as <- _; lia].
  destruct (_write_data svc sid (_get_sheet_name c0) (p0 :: rest) url);
    [|injection H as <- _; lia].
  destruct (_handle_new_properties svc c sid shid (p0 :: rest))
    as [[m|] l'] eqn:E; [|injection H as <- _; lia].
  injection H as <- <-.
  unfold _handle_new_properties, mark_against in E.
  destruct (_get_previous_data svc sid (target_sheet c)) as [df|].
  - destruct (Pandas.empty df).
    + eapply mark_all_as_new_tagged; eassumption.
    + eapply mark_new_properties_tagged; eassumption.
  - eapply mark_all_as_new_tagged; eassumption.
Qed.

(** [prop.get('is_new', False)] is true for the records whose key is
    there with the value True, and for no other. *)
Lemma get_is_new_iff : forall q,
  get_is_new q = true <-> p_is_new q = Some true.
Proof.
  intros q. unfold get_is_new.
  destruct (p_is_new q) as [[|]|]; split; congruence.
Qed.

Lemma filter_get_is_new : forall l,
  filter get_is_new l
  = filter (fun q => match p_is_new q with
                     | Some true => true
                     | _ => false
                     end) l.
Proof.
  intros l. apply filter_ext. intros q. unfold get_is_new.
  now destruct (p_is_new q) as [[|]|].
Qed.

End NotifyFacts.

(** C9. [export_to_sheets] calls the notification service if and only if
    the count returned by [export_properties] is positive; with a count of
    0 no call is made; and when the call is made, it is made with the
    records that carry the tag 'is_new' = True after the export, those
    and no other, and the message lists the first five at most of
    them. *)
Theorem notification_iff_positive_count :
  forall (svc : sheets_service) (c_sheet c_diff : clock)
         (properties : list property_info)
         (spreadsheet_id search_url : string),
    let out :=
      SuumoExport.export_to_sheets svc c_sheet c_diff properties
        spreadsheet_id search_url in
    out_count out
      = fst (SheetsManager.export_properties svc c_sheet c_diff properties
               spreadsheet_id search_url)
    /\ (out_notified out <> None <-> 0 < out_count out)
    /\ (out_count out = 0 -> out_notified out = None)
    /\ (forall new_properties sheet_url,
          out_notified out = Some (new_properties, sheet_url) ->
          new_properties
            = filter (fun q => match p_is_new q with
                               | Some true => true
                               | _ => false
                               end)
                (snd (SheetsManager.export_properties svc c_sheet c_diff
                        properties spreadsheet_id search_url))
          /\ exists m,
            NotificationService.send_notification new_properties sheet_url
              = Some m
            /\ msg_display_properties m = firstn 5 new_properties
            /\ List.length (msg_display_properties m) <= 5
            /\ Forall (fun q => p_is_new q = Some true
                                /\ SheetsManager.get_is_new q = true
                                /\ In q (out_properties out))
                      (msg_display_properties m)).
Proof.
  intros svc c0 c properties sid url out. unfold out.
  unfold SuumoExport.export_to_sheets.
  destruct (SheetsManager.export_properties svc c0 c properties sid url)
    as [n l] eqn:E.
  cbn [fst snd]. destruct (Nat.ltb 0 n) eqn:Hn; cbn [out_count out_notified
    out_properties].
  - apply Nat.ltb_lt in Hn. split; [reflexivity|]. split.
    { split; [intros _; exact Hn|discriminate]. }
    split; [lia|].
    intros nps sheet_url Hs. injection Hs as <- <-.
    split; [apply NotifyFacts.filter_get_is_new|].
    destruct (NotifyFacts.export_properties_tagged _ _ _ _ _ _ _ _ E Hn)
      as [q [Hin Hq]].
    assert (Hne : In q (filter SheetsManager.get_is_new l)).
    { apply filter_In. now split. }
    unfold NotificationService.send_notification.
    destruct (filter SheetsManager.get_is_new l) as [|x xs] eqn:F;
      [contradiction|].
    eexists. split; [reflexivity|]. cbn [msg_display_properties].
    split; [reflexivity|]. split; [apply firstn_le_length|].
    apply Forall_forall. intros y Hy.
    unfold NotificationService.max_properties in Hy.
    assert (Hy' : In y (filter SheetsManager.get_is_new l)).
    { rewrite F. exact (NotifyFacts.in_firstn _ 5 _ _ Hy). }
    apply filter_In in Hy'. destruct Hy' as [Hy1 Hy2].
    split; [now apply NotifyFacts.get_is_new_iff|]. now split.
  - apply Nat.ltb_ge in Hn. split; [reflexivity|]. split.
    { split; [intros H; now elim H|lia]. }
    split; [reflexivity|]. intros nps sheet_url Hs. discriminate.
Qed.

(** The run of the end-to-end example notifies with the two new records,
    C and D, and not with A; a run over an empty list does not notify. *)
Lemma notification_iff_positive_count_witness :
  out_notified
    (SuumoExport.export_to_sheets Fixtures.service_AB Fixtures.evening
       Fixtures.evening Fixtures.current_run "id" "u")
  = Some ([SheetsManager.set_is_new Fixtures.rec_C;
           SheetsManager.set_is_new Fixtures.rec_D],
          "https://docs.google.com/spreadsheets/d/id")
  /\ out_notified
       (SuumoExport.export_to_sheets Fixtures.service_AB Fixtures.evening
          Fixtures.evening Fixtures.current_run "id" "u") <> None
  /\ out_notified
       (SuumoExport.export_to_sheets Fixtures.service_AB Fixtures.evening
          Fixtures.evening [] "id" "u") = None.
Proof.
  split; [reflexivity|split].
  - apply (notification_iff_positive_count Fixtures.service_AB
             Fixtures.evening Fixtures.evening Fixtures.current_run
             "id" "u").
    vm_compute. lia.
  - apply (notification_iff_positive_count Fixtures.service_AB
             Fixtures.evening Fixtures.evening [] "id" "u").
    reflexivity.
Defined.

(** C10. When a previous run is found (a frame that is not empty) whose
    columns do not include '物件URL', the diff tags nothing and returns 0
    without raising; [export_to_sheets] then leaves the records as they
    were and makes no notification call. *)
Theorem missing_url_column_nothing_new :
  forall (svc : sheets_service) (c : clock) (spreadsheet_id : string)
         (sheet_id : Z) (properties : list property_info) (df : DataFrame),
    SheetsManager._get_previous_data svc spreadsheet_id
      (SheetsManager.target_sheet c) = Some df ->
    Pandas.empty df = false ->
    Pandas.has_column df SheetsManager.URL_KEY = false ->
    SheetsManager._handle_new_properties svc c spreadsheet_id sheet_id
      properties = (Ok 0, properties)
    /\ (forall c_sheet search_url,
          let out :=
            SuumoExport.export_to_sheets svc c_sheet c properties
              spreadsheet_id search_url in
          out_count out = 0
          /\ out_properties out = properties
          /\ out_notified out = None).
Proof.
  intros svc c sid shid properties df Hprev He Hcol.
  assert (H : forall shid',
            SheetsManager._handle_new_properties svc c sid shid' properties
            = (Ok 0, properties)).
  { intros shid'.
    unfold SheetsManager._handle_new_properties, SheetsManager.mark_against.
    rewrite Hprev, He. unfold SheetsManager._mark_new_properties.
    now rewrite Hcol. }
  split; [apply H|].
  intros c0 url out. unfold out, SuumoExport.export_to_sheets.
  assert (E : SheetsManager.export_properties svc c0 c properties sid url
              = (0, properties)).
  { unfold SheetsManager.export_properties.
    destruct properties as [|p0 rest]; [reflexivity|].
    destruct (SheetsManager._create_new_sheet svc sid _) as [shid'|];
      [|reflexivity].
    destruct (SheetsManager._write_data svc sid _ (p0 :: rest) url);
      [|reflexivity].
    now rewrite H. }
  rewrite E. cbn. repeat split.
Qed.

(** A morning sheet with the columns 物件名 and 賃料 only: the evening
    run tags none of its three records and does not notify. *)
Lemma missing_url_column_nothing_new_witness :
  SheetsManager._handle_new_properties Fixtures.service_no_url_column
    Fixtures.evening "id" 7 Fixtures.current_run
  = (Ok 0, Fixtures.current_run)
  /\ out_notified
       (SuumoExport.export_to_sheets Fixtures.service_no_url_column
          Fixtures.evening Fixtures.evening Fixtures.current_run "id" "u")
     = None.
Proof.
  destruct (missing_url_column_nothing_new Fixtures.service_no_url_column
              Fixtures.evening "id" 7 Fixtures.current_run
              (mk_frame ["物件名"; "賃料"]
                 [[Some "物件名"; Some "賃料"]; [Some "A"; Some "7万円"]])
              eq_refl eq_refl eq_refl) as [H1 H2].
  split; [exact H1|]. exact (proj2 (proj2 (H2 Fixtures.evening "u"))).
Defined.


(** ** Which run is the previous one *)

Module SlotFacts.
Import SheetsManager SlotSpec.

Lemma strftime_localtime : forall tz t,
  PyTime.strftime_ymd (PyTime.localtime tz t)
  = PyTime.strftime_ymd (PyTime.tm_of_day (PyTime.local_day tz t)).
Proof.
  intros tz t. unfold PyTime.localtime, PyTime.tm_of_day.
  now destruct (PyTime.civil_from_days (PyTime.local_day tz t)) as [[y m] d].
Qed.

(** The sheet a run is stored under is the name of its identity. *)
Lemma get_sheet_name_identity : forall c,
  _get_sheet_name c = sheet_name_of (current_day c) (current_slot c).
Proof.
  intros c. unfold _get_sheet_name, sheet_name_of, current_day, current_slot.
  rewrite strftime_localtime.
  now destruct (PyTime.local_hour (utc_offset c) (time_time c) <? 12)%Z.
Qed.

(** In the afternoon the previous run is the morning run of the day. *)
Lemma target_sheet_pm : forall c,
  current_slot c = PM -> target_sheet c = sheet_name_of (current_day c) AM.
Proof.
  intros c H. unfold current_slot in H.
  unfold target_sheet, sheet_name_of, current_day.
  destruct (PyTime.local_hour (utc_offset c) (time_time c) <? 12)%Z;
    [discriminate|].
  now rewrite strftime_localtime.
Qed.

(** One day earlier on the local calendar, when the zone had the same
    UTC offset 24 hours ago. *)
Lemma local_day_yesterday : forall tz t,
  tz (t - 24 * 60 * 60)%Z = tz t ->
  PyTime.local_day tz (t - 24 * 60 * 60)%Z = (PyTime.local_day tz t - 1)%Z.
Proof.
  intros tz t H. unfold PyTime.local_day. rewrite H.
  replace (t - 24 * 60 * 60 + tz t)%Z with (t + tz t + (-1) * 86400)%Z
    by lia.
  rewrite Z.div_add by lia. lia.
Qed.

(** In the morning the previous run is the afternoon run of the day
    before, as long as the UTC offset of the zone was the same 24 hours
    earlier (always so in a zone without daylight saving time). *)
Lemma target_sheet_am : forall c,
  current_slot c = AM ->
  utc_offset c (time_time c - 24 * 60 * 60)%Z = utc_offset c (time_time c) ->
  target_sheet c = sheet_name_of (current_day c - 1) PM.
Proof.
  intros c H Htz. unfold current_slot in H.
  unfold target_sheet, sheet_name_of, current_day.
  destruct (PyTime.local_hour (utc_offset c) (time_time c) <? 12)%Z;
    [|discriminate].
  now rewrite strftime_localtime, local_day_yesterday.
Qed.

(** The two examples of the specification, in Japan Standard Time. *)
Example slot_resolution_examples :
  _get_sheet_name Fixtures.morning = "2024/05/10/AM"
  /\ target_sheet Fixtures.morning = "2024/05/09/PM"
  /\ _get_sheet_name Fixtures.evening = "2024/05/10/PM"
  /\ target_sheet Fixtures.evening = "2024/05/10/AM".
Proof. repeat split; vm_compute; reflexivity. Qed.

End SlotFacts.

(** C2, where the code departs from it.  At 00:30 local time on
    2024-03-11 in a zone that moved its clocks forward the day before, the
    run is the morning run of 2024-03-11 and the day before is 2024-03-10,
    but [time.time() - 24*60*60] falls on 2024-03-09 (23:30 local time),
    so the sheet compared with is 2024/03/09/PM. *)
Theorem target_sheet_after_clock_change :
  SlotSpec.current_slot Fixtures.after_spring_forward = SlotSpec.AM
  /\ SheetsManager._get_sheet_name Fixtures.after_spring_forward
     = "2024/03/11/AM"
  /\ SlotSpec.sheet_name_of
       (SlotSpec.current_day Fixtures.after_spring_forward - 1) SlotSpec.PM
     = "2024/03/10/PM"
  /\ SheetsManager.target_sheet Fixtures.after_spring_forward
     = "2024/03/09/PM".
Proof. repeat split; vm_compute; reflexivity. Qed.


(** * Further properties of the code *)

(** ** Extractor *)

Module UrlFacts.
Import PropertyParser.

Lemma split_first_cons : forall sep c rest,
  PyStr.split_first sep (String c rest)
  = if Ascii.eqb c sep then EmptyString
    else String c (PyStr.split_first sep rest).
Proof.
  intros sep c rest. unfold PyStr.split_first. simpl.
  destruct (Ascii.eqb c sep); [reflexivity|].
  destruct (PyStr.split sep rest) eqn:E; [|reflexivity].
  exfalso. exact (split_nonempty sep rest E).
Qed.

Lemma split_first_clean : forall sep s,
  PyStr.contains sep (PyStr.split_first sep s) = false.
Proof.
  intros sep s. induction s as [|c rest IH]; [reflexivity|].
  rewrite split_first_cons. destruct (Ascii.eqb c sep) eqn:E;
    [reflexivity|]. simpl. now rewrite E, IH.
Qed.

Lemma contains_append : forall c a b,
  PyStr.contains c (a ++ b)%string
  = PyStr.contains c a || PyStr.contains c b.
Proof.
  intros c a b. induction a as [|d a IH]; simpl; [reflexivity|].
  now rewrite IH, orb_assoc.
Qed.

(** The shape of every URL the extractor produces. *)
Lemma url_shape : forall it base,
  PyStr.contains "?" (_get_property_url it base) = false
  /\ PyStr.startswith "/" (_get_property_url it base) = false.
Proof.
  intros it base. unfold _get_property_url.
  destruct (select_one it ".js-cassette_link_href") as [link|];
    [|split; reflexivity].
  destruct (attr "href" (tag_attrs link)) as [href|]; [|split; reflexivity].
  cbv zeta.
  destruct (PyStr.startswith "/" (PyStr.split_first "?" href)) eqn:E.
  - split; [|reflexivity].
    rewrite contains_append, split_first_clean. reflexivity.
  - split; [apply split_first_clean|exact E].
Qed.

End UrlFacts.

(** X1. Whatever the fragment, the detail URL the extractor stores holds
    no '?' and does not start with '/': no query string and no
    root-relative path is ever stored. *)
Theorem property_url_never_relative_nor_query :
  forall (it : item) (base : string),
    PyStr.contains "?" (PropertyParser._get_property_url it base) = false
    /\ PyStr.startswith "/" (PropertyParser._get_property_url it base)
       = false.
Proof.
  intros it base. split.
  - exact (proj1 (UrlFacts.url_shape it base)).
  - exact (proj2 (UrlFacts.url_shape it base)).
Qed.

(** X2. A link that already is a stored detail URL is stored unchanged:
    extracting from a fragment that links to the URL extracted from
    another fragment gives that URL again. *)
Theorem property_url_stable :
  forall (it1 it2 : item) (base1 base2 : string) (link2 : tag),
    select_one it2 ".js-cassette_link_href" = Some link2 ->
    attr "href" (tag_attrs link2)
      = Some (PropertyParser._get_property_url it1 base1) ->
    PropertyParser._get_property_url it2 base2
      = PropertyParser._get_property_url it1 base1.
Proof.
  intros it1 it2 base1 base2 link2 Hl Hh.
  destruct (UrlFacts.url_shape it1 base1) as [Hq Hs].
  rewrite (ParserFacts.url_of_href _ _ _ _ Hl Hh). cbv zeta.
  rewrite (split_first_none _ _ Hq). now rewrite Hs.
Qed.

Lemma property_url_stable_witness :
  PropertyParser._get_property_url MoreFixtures.item_thumbs
    SuumoScraper.base_url
  = PropertyParser._get_property_url Fixtures.item_sparse
      SuumoScraper.base_url.
Proof.
  exact (property_url_stable Fixtures.item_sparse MoreFixtures.item_thumbs
           SuumoScraper.base_url SuumoScraper.base_url
           (mk_tag "" [("href", "https://suumo.jp/chintai/jnc_1/")])
           eq_refl eq_refl).
Defined.

(** X3. The thumbnail list is split on ',' and joined on ',' again, so a
    record's 画像一覧 is the [data-imgs] attribute as it stands, also when
    the attribute is the empty string (which then is stored, not "N/A"). *)
Theorem images_field_is_attribute :
  forall (it : item) (base : string) (sp : params) (r : property_info)
         (thumbnail_div : tag) (imgs : string),
    PropertyParser._extract_property_info it base sp = Ok r ->
    select_one it ".casssetteitem_other-thumbnail" = Some thumbnail_div ->
    attr "data-imgs" (tag_attrs thumbnail_div) = Some imgs ->
    p_images r = imgs.
Proof.
  intros it base sp r d imgs H Hd Ha.
  unfold PropertyParser._extract_property_info in H.
  assert (J : match PyStr.split "," imgs with
              | [] => PropertyParser.NA
              | _ :: _ => PyStr.join "," (PyStr.split "," imgs)
              end = imgs).
  { pose proof (join_split "," imgs) as Hj.
    destruct (PyStr.split "," imgs) eqn:E; [|exact Hj].
    exfalso. exact (split_nonempty "," imgs E). }
  destruct (select_one it ".cassetteitem_object-item img") as [img|].
  - destruct (attr "src" (tag_attrs img)); [|discriminate].
    injection H as <-. cbn [p_images]. rewrite Hd, Ha. exact J.
  - injection H as <-. cbn [p_images]. rewrite Hd, Ha. exact J.
Qed.

Lemma images_field_is_attribute_witness :
  (exists r,
     PropertyParser._extract_property_info MoreFixtures.item_thumbs
       SuumoScraper.base_url [] = Ok r
     /\ p_images r = "a.jpg,b.jpg")
  /\ (exists r,
        PropertyParser._extract_property_info MoreFixtures.item_no_thumbs
          SuumoScraper.base_url [] = Ok r
        /\ p_images r = "").
Proof.
  split; eexists; (split; [reflexivity|]).
  - exact (images_field_is_attribute MoreFixtures.item_thumbs
             SuumoScraper.base_url [] _
             (mk_tag "" [("data-imgs", "a.jpg,b.jpg")]) "a.jpg,b.jpg"
             eq_refl eq_refl eq_refl).
  - exact (images_field_is_attribute MoreFixtures.item_no_thumbs
             SuumoScraper.base_url [] _
             (mk_tag "" [("data-imgs", "")]) ""
             eq_refl eq_refl eq_refl).
Defined.

Module ParseInvariants.
Import PropertyParser.

Lemma extract_fresh : forall it base sp r,
  _extract_property_info it base sp = Ok r ->
  p_is_new r = None /\ p_search_params r = sp.
Proof.
  intros it base sp r H. unfold _extract_property_info in H.
  destruct (select_one it ".cassetteitem_object-item img") as [img|].
  - destruct (attr "src" (tag_attrs img)); [|discriminate].
    injection H as <-. split; reflexivity.
  - injection H as <-. split; reflexivity.
Qed.

Lemma parse_items_fresh : forall items base sp,
  Forall (fun r => p_is_new r = None /\ p_search_params r = sp)
         (parse_items items base sp).
Proof.
  induction items as [|it rest IH]; intros base sp; simpl; [constructor|].
  destruct (_extract_property_info it base sp) eqn:E; [|apply IH].
  constructor; [eapply extract_fresh; exact E|apply IH].
Qed.

Lemma parse_items_length : forall items base sp,
  List.length (parse_items items base sp) <= List.length items.
Proof.
  induction items as [|it rest IH]; intros base sp; simpl; [lia|].
  specialize (IH base sp).
  destruct (_extract_property_info it base sp); simpl; lia.
Qed.

Lemma parse_items_nil : forall items base sp,
  parse_items items base sp = [] <->
  Forall (fun it => _extract_property_info it base sp = Raised) items.
Proof.
  induction items as [|it rest IH]; intros base sp; simpl.
  - split; [constructor|reflexivity].
  - destruct (_extract_property_info it base sp) eqn:E.
    + split; [discriminate|]. intros H. inversion H. congruence.
    + rewrite IH. split; intros H.
      * now constructor.
      * now inversion H.
Qed.

End ParseInvariants.

(** X4. [parse_properties] gives at most one record per fragment; every
    record it gives has no 'is_new' key and carries the search parameters
    passed in; and it gives no record at all exactly when the extraction
    of every fragment raises (in particular when there is no fragment). *)
Theorem parse_properties_invariants :
  forall (items : list item) (base : string) (sp : params),
    List.length (PropertyParser.parse_properties items base sp)
      <= List.length items
    /\ Forall (fun r => p_is_new r = None /\ p_search_params r = sp)
              (PropertyParser.parse_properties items base sp)
    /\ (PropertyParser.parse_properties items base sp = [] <->
        Forall (fun it =>
                  PropertyParser._extract_property_info it base sp = Raised)
               items).
Proof.
  intros items base sp. rewrite ParserFacts.parse_properties_items.
  split; [apply ParseInvariants.parse_items_length|].
  split; [apply ParseInvariants.parse_items_fresh|].
  apply ParseInvariants.parse_items_nil.
Qed.

Module StripFacts.
Import TextSpec.
Local Open Scope string_scope.

Lemma append_nil_r : forall a : string, a ++ "" = a.
Proof. induction a; simpl; [reflexivity|now rewrite IHa]. Qed.

Lemma reverse_append : forall a b,
  PyStr.reverse (a ++ b) = PyStr.reverse b ++ PyStr.reverse a.
Proof.
  induction a; intros; simpl.
  - now rewrite append_nil_r.
  - now rewrite IHa, StringFacts.app_assoc_s.
Qed.

Lemma reverse_reverse : forall a, PyStr.reverse (PyStr.reverse a) = a.
Proof.
  induction a; simpl; [reflexivity|].
  now rewrite reverse_append, IHa.
Qed.

Lemma length_reverse : forall a,
  String.length (PyStr.reverse a) = String.length a.
Proof.
  induction a; simpl; [reflexivity|].
  rewrite StringFacts.app_length_s, IHa. simpl. lia.
Qed.

Lemma drop_prefix_some : forall w s r,
  PyStr.drop_prefix w s = Some r <-> s = w ++ r.
Proof.
  induction w as [|a w IH]; intros s r; simpl.
  - split; [now intros [= ->]|now intros ->].
  - destruct s as [|b s].
    + split; discriminate.
    + destruct (Ascii.eqb_spec a b) as [->|N].
      * rewrite IH. split; [now intros ->|now intros [= ->]].
      * split; [discriminate|]. intros [= E _]. now elim N.
Qed.

Lemma drop_char_some : forall chars s r,
  PyStr.drop_char chars s = Some r ->
  exists w, In w chars /\ s = w ++ r.
Proof.
  induction chars as [|w chars IH]; intros s r H; simpl in H; [discriminate|].
  destruct (PyStr.drop_prefix w s) as [r'|] eqn:E.
  - injection H as ->. apply drop_prefix_some in E.
    exists w. split; [now left|exact E].
  - destruct (IH _ _ H) as [w' [I E']]. exists w'. split; [now right|exact E'].
Qed.

Lemma drop_char_none : forall chars s,
  PyStr.drop_char chars s = None ->
  forall w r, In w chars -> s <> w ++ r.
Proof.
  induction chars as [|w chars IH]; intros s H w' r I E; simpl in *; [easy|].
  destruct (PyStr.drop_prefix w s) as [r'|] eqn:D; [discriminate|].
  destruct I as [<-|I].
  - apply drop_prefix_some in E. congruence.
  - exact (IH _ H _ _ I E).
Qed.

(** With one unit of fuel per byte the loop runs to its end: what is
    removed is a run of the given characters, and what is left starts
    with none of them. *)
Lemma lstrip_chars_spec : forall chars,
  (forall w, In w chars -> w <> "") ->
  forall fuel s, String.length s <= fuel ->
    exists pre,
      run_of chars pre
      /\ s = pre ++ PyStr.lstrip_chars chars fuel s
      /\ PyStr.drop_char chars (PyStr.lstrip_chars chars fuel s) = None.
Proof.
  intros chars NE. induction fuel as [|fuel IH]; intros s L.
  - destruct s; [|simpl in L; lia]. exists "". simpl.
    split; [constructor|split; [reflexivity|]].
    destruct (PyStr.drop_char chars "") as [r|] eqn:E; [|reflexivity].
    apply drop_char_some in E as [w [I E]].
    destruct w; [now elim (NE _ I)|discriminate].
  - simpl. destruct (PyStr.drop_char chars s) as [r|] eqn:E.
    + destruct (drop_char_some _ _ _ E) as [w [I ->]].
      assert (Lr : String.length r <= fuel).
      { rewrite StringFacts.app_length_s in L.
        destruct w; [now elim (NE _ I)|simpl in L; lia]. }
      destruct (IH r Lr) as [pre [R [E1 E2]]].
      exists (w ++ pre). split; [now constructor|split; [|exact E2]].
      rewrite StringFacts.app_assoc_s. now rewrite <- E1.
    + exists "". split; [constructor|split; [reflexivity|exact E]].
Qed.

Lemma run_of_app : forall chars a b,
  run_of chars a -> run_of chars b -> run_of chars (a ++ b).
Proof.
  intros chars a b Ha Hb. induction Ha as [|w s I _ IH]; [exact Hb|].
  rewrite StringFacts.app_assoc_s. now constructor.
Qed.

Lemma run_of_reverse : forall chars s,
  run_of (map PyStr.reverse chars) s -> run_of chars (PyStr.reverse s).
Proof.
  intros chars s H. induction H as [|w s I _ IH]; [constructor|].
  rewrite reverse_append. apply run_of_app; [exact IH|].
  apply in_map_iff in I as [w0 [<- I]]. rewrite reverse_reverse.
  rewrite <- (append_nil_r w0). constructor; [exact I|constructor].
Qed.

Lemma whitespace_nonempty : forall w, In w PyStr.whitespace -> w <> "".
Proof.
  intros w I ->. revert I. vm_compute.
  repeat (intros [I|I]; [discriminate|revert I]). easy.
Qed.

Lemma reverse_nonempty : forall w,
  In w (map PyStr.reverse PyStr.whitespace) -> w <> "".
Proof.
  intros w I ->. apply in_map_iff in I as [w0 [E I]].
  apply (whitespace_nonempty _ I).
  rewrite <- (reverse_reverse w0), E. reflexivity.
Qed.

Lemma lstrip_spec : forall s,
  exists pre, blank pre /\ s = pre ++ PyStr.lstrip s
    /\ forall w r, In w PyStr.whitespace -> PyStr.lstrip s <> w ++ r.
Proof.
  intros s.
  destruct (lstrip_chars_spec _ whitespace_nonempty (String.length s) s
              (le_n _)) as [pre [R [E N]]].
  exists pre. split; [exact R|split; [exact E|]].
  exact (drop_char_none _ _ N).
Qed.

Lemma rstrip_spec : forall s,
  exists post, blank post /\ s = PyStr.rstrip s ++ post
    /\ forall w r, In w PyStr.whitespace -> PyStr.rstrip s <> r ++ w.
Proof.
  intros s. unfold PyStr.rstrip.
  destruct (lstrip_chars_spec _ reverse_nonempty (String.length s)
              (PyStr.reverse s)) as [pre [R [E N]]].
  { now rewrite length_reverse. }
  exists (PyStr.reverse pre). split; [now apply run_of_reverse|split].
  - rewrite <- reverse_append, <- E. now rewrite reverse_reverse.
  - intros w r I H.
    apply (drop_char_none _ _ N (PyStr.reverse w) (PyStr.reverse r)).
    + now apply in_map.
    + rewrite <- reverse_append, <- H. now rewrite reverse_reverse.
Qed.

Lemma strip_spec : forall s,
  (exists pre post, blank pre /\ blank post
      /\ s = pre ++ PyStr.strip s ++ post)
  /\ forall w r, In w PyStr.whitespace ->
       PyStr.strip s <> w ++ r /\ PyStr.strip s <> r ++ w.
Proof.
  intros s. unfold PyStr.strip.
  destruct (lstrip_spec s) as [pre [Bpre [E1 N1]]].
  destruct (rstrip_spec (PyStr.lstrip s)) as [post [Bpost [E2 N2]]].
  split.
  - exists pre, post. split; [exact Bpre|split; [exact Bpost|]].
    now rewrite <- E2.
  - intros w r I. split; [|now apply N2].
    intros H. apply (N1 w (r ++ post) I).
    rewrite E2 at 1. rewrite H. now rewrite StringFacts.app_assoc_s.
Qed.

End StripFacts.

(** X5. A text field is the element's text without the white space at
    its two ends, the Unicode white space included: what [_get_text]
    takes away in front and behind is white space only, and what it
    returns neither starts nor ends with a white-space character (also
    when the element is missing and "N/A" is returned). *)
Theorem get_text_is_stripped :
  forall (it : item) (selector : string),
    (forall element, select_one it selector = Some element ->
       exists pre post,
         TextSpec.blank pre /\ TextSpec.blank post
         /\ tag_text element
            = (pre ++ PropertyParser._get_text it selector ++ post)%string)
    /\ (forall w rest, In w PyStr.whitespace ->
          PropertyParser._get_text it selector <> (w ++ rest)%string
          /\ PropertyParser._get_text it selector <> (rest ++ w)%string).
Proof.
  intros it selector. unfold PropertyParser._get_text.
  destruct (select_one it selector) as [element|].
  - destruct (StripFacts.strip_spec (tag_text element)) as [D N].
    split; [|exact N]. now intros e [= <-].
  - split; [discriminate|].
    intros w rest I. split; intros H.
    + apply (StripFacts.drop_char_none PyStr.whitespace PropertyParser.NA
               eq_refl w rest I H).
    + assert (R : PyStr.reverse PropertyParser.NA
                  = (PyStr.reverse w ++ PyStr.reverse rest)%string).
      { now rewrite H, StripFacts.reverse_append. }
      apply (StripFacts.drop_char_none (map PyStr.reverse PyStr.whitespace)
               (PyStr.reverse PropertyParser.NA) eq_refl
               (PyStr.reverse w) (PyStr.reverse rest));
        [now apply in_map|exact R].
Qed.

(** A title between ideographic spaces and a rent followed by a
    no-break space come out bare. *)
Lemma get_text_is_stripped_witness :
  PropertyParser._get_text MoreFixtures.item_padded
    ".cassetteitem_content-title" = "メゾン A"
  /\ PropertyParser._get_text MoreFixtures.item_padded
       ".cassetteitem_price--rent" = "7.5万円"
  /\ forall rest,
       PropertyParser._get_text MoreFixtures.item_padded
         ".cassetteitem_content-title"
         <> (rest ++ TextSpec.ideographic_space)%string.
Proof.
  split; [reflexivity|split; [reflexivity|]].
  intros rest.
  apply (get_text_is_stripped MoreFixtures.item_padded
           ".cassetteitem_content-title").
  vm_compute. tauto.
Defined.


(** ** Crawl controller *)

Module CrawlMore.
Import SuumoScraper.

(** The pass over a loaded last page. *)
Lemma iteration_last : forall d p page acc,
  CrawlSpec2.last_page d p page ->
  exists lines,
    iteration d p page acc = (lines, Break (acc ++ page_properties d p page))
    /\ requests lines = [page_url p page]
    /\ ~ In LogError lines.
Proof.
  intros d p page acc [[html Hd] Hc].
  unfold continues in Hc. unfold page_properties in *. rewrite Hd in *.
  destruct (PropertyParser.parse_properties (soup_items html) base_url
              (current_params p page)) as [|r rs] eqn:Hp.
  - rewrite (CrawlFacts.iteration_no_properties d p page acc html Hd Hp).
    rewrite app_nil_r. eexists. split; [reflexivity|].
    split; [reflexivity|]. simpl. intros [H|[H|[]]]; discriminate.
  - pose proof (CrawlFacts.iteration_last_page d p page acc html Hd) as H.
    cbv zeta in H. rewrite Hp in H. rewrite H; [|discriminate|exact Hc].
    eexists. split; [reflexivity|]. split; [reflexivity|].
    simpl. intros [H'|[H'|[H'|[H'|[]]]]]; discriminate.
Qed.

(** What a pass adds to the accumulated list. *)
Lemma iteration_adds : forall d p page acc,
  match snd (iteration d p page acc) with
  | Continue a | Break a =>
      exists recs,
        a = acc ++ recs
        /\ Forall (fun r => p_is_new r = None
                            /\ p_search_params r = current_params p page)
                  recs
  | Propagate => True
  end.
Proof.
  intros d p page acc. unfold iteration.
  destruct (driver_get d (build_search_url (current_params p page)))
    as [html|[[cu t]|]]; cbn [snd]; [| |exact I].
  - pose proof (ParseInvariants.parse_items_fresh (soup_items html) base_url
                  (current_params p page)) as F.
    rewrite <- ParserFacts.parse_properties_items in F.
    destruct (PropertyParser.parse_properties (soup_items html) base_url
                (current_params p page)) as [|r rs] eqn:Hp.
    + cbn [snd]. exists []. now rewrite app_nil_r.
    + destruct (has_next_page html page); cbn [snd]; now exists (r :: rs).
  - exists []. now rewrite app_nil_r.
Qed.

Lemma scrape_loop_records : forall fuel d p page acc recs,
  snd (scrape_loop fuel d p page acc) = Some (Ok recs) ->
  exists added,
    recs = acc ++ added
    /\ Forall (fun r => p_is_new r = None
                        /\ exists k, page <= k
                             /\ p_search_params r = current_params p k)
              added.
Proof.
  induction fuel as [|fuel IH]; intros d p page acc recs H;
    [discriminate|].
  cbn [scrape_loop] in H.
  pose proof (iteration_adds d p page acc) as Ha.
  destruct (iteration d p page acc) as [lines [a|a|]]; cbn [snd] in Ha.
  - destruct Ha as [r1 [-> F1]].
    destruct (scrape_loop fuel d p (S page) (acc ++ r1)) as [more r] eqn:E.
    cbn [snd] in H. subst r.
    destruct (IH d p (S page) (acc ++ r1) recs) as [r2 [-> F2]];
      [now rewrite E|].
    exists (r1 ++ r2). split; [now rewrite app_assoc|].
    apply Forall_app. split.
    + eapply Forall_impl; [|exact F1]. intros r [H1 H2].
      split; [exact H1|]. exists page. split; [lia|exact H2].
    + eapply Forall_impl; [|exact F2]. intros r [H1 [k [Hk H2]]].
      split; [exact H1|]. exists k. split; [lia|exact H2].
  - destruct Ha as [r1 [-> F1]]. cbn [snd] in H. injection H as <-.
    exists r1. split; [reflexivity|].
    eapply Forall_impl; [|exact F1]. intros r [H1 H2].
    split; [exact H1|]. exists page. split; [lia|exact H2].
  - discriminate.
Qed.

(** What a pass adds is what its page gives. *)
Lemma iteration_page : forall d p page acc,
  match snd (iteration d p page acc) with
  | Continue a | Break a => a = acc ++ page_properties d p page
  | Propagate => True
  end.
Proof.
  intros d p page acc. unfold iteration, page_properties, page_url.
  destruct (driver_get d (build_search_url (current_params p page)))
    as [html|[[cu t]|]]; cbn [snd]; [| |exact I].
  - destruct (PropertyParser.parse_properties (soup_items html) base_url
                (current_params p page)) as [|r rs] eqn:Hp.
    + cbn [snd]. now rewrite app_nil_r.
    + destruct (has_next_page html page); reflexivity.
  - now rewrite app_nil_r.
Qed.

(** The list returned holds the records of the pages from [page] on, page
    by page. *)
Lemma scrape_loop_pages : forall fuel d p page acc recs,
  snd (scrape_loop fuel d p page acc) = Some (Ok recs) ->
  exists m,
    1 <= m /\ m <= fuel
    /\ recs = acc ++ flat_map (page_properties d p) (seq page m).
Proof.
  induction fuel as [|fuel IH]; intros d p page acc recs H;
    [discriminate|].
  rewrite CrawlFacts.scrape_loop_S in H.
  pose proof (iteration_page d p page acc) as Ha.
  destruct (iteration d p page acc) as [lines [a|a|]]; cbn [snd] in Ha.
  - subst a.
    destruct (scrape_loop fuel d p (S page)
                (acc ++ page_properties d p page)) as [more r] eqn:E.
    cbn [snd] in H. subst r.
    destruct (IH d p (S page) (acc ++ page_properties d p page) recs)
      as [m [Hm [Hf ->]]]; [now rewrite E|].
    exists (S m). split; [lia|]. split; [lia|].
    cbn [seq flat_map]. now rewrite app_assoc.
  - subst a. cbn [snd] in H. injection H as <-.
    exists 1. split; [lia|]. split; [lia|].
    cbn [seq flat_map]. now rewrite app_nil_r.
  - discriminate.
Qed.

(** The records of a page carry the parameters of that page. *)
Lemma page_properties_fresh : forall d p page,
  Forall (fun r => p_is_new r = None
                   /\ p_search_params r = dict_set p "page" (PyStr.str page))
         (page_properties d p page).
Proof.
  intros d p page. unfold page_properties.
  destruct (driver_get d (page_url p page)) as [html|]; [|constructor].
  rewrite ParserFacts.parse_properties_items.
  apply ParseInvariants.parse_items_fresh.
Qed.

End CrawlMore.

(** X6. A catalog of m pages is read completely and in order: when pages
    1..m-1 each give a record and a next-page link and page m loads as the
    last one, the crawl requests the URLs of pages 1..m once each, in that
    order, prints no error, and returns the records of the pages in page
    order (within a page, in fragment order; nothing is removed). *)
Theorem crawl_collects_pages_in_order :
  forall (d : driver) (p : params) (m fuel : nat),
    1 <= m -> m <= fuel ->
    (forall k, 1 <= k < m -> SuumoScraper.continues d p k = true) ->
    CrawlSpec2.last_page d p m ->
    snd (SuumoScraper.scrape_properties fuel d p)
      = Some (Ok (flat_map (SuumoScraper.page_properties d p) (seq 1 m)))
    /\ SuumoScraper.requests (fst (SuumoScraper.scrape_properties fuel d p))
       = map (SuumoScraper.page_url p) (seq 1 m)
    /\ ~ In LogError (fst (SuumoScraper.scrape_properties fuel d p)).
Proof.
  intros d p m fuel Hm Hf Hc Hl.
  unfold SuumoScraper.scrape_properties.
  replace fuel with ((m - 1) + S (fuel - m)) by lia.
  destruct (CrawlFacts.scrape_loop_continues (m - 1) d p 1 []
              (S (fuel - m))) as [lines [E [R N]]].
  { intros k Hk. apply Hc. lia. }
  rewrite E. clear E.
  replace (1 + (m - 1)) with m by lia.
  cbn [SuumoScraper.scrape_loop].
  destruct (CrawlMore.iteration_last d p m
              ([] ++ flat_map (SuumoScraper.page_properties d p)
                       (seq 1 (m - 1))) Hl) as [l2 [E2 [R2 N2]]].
  rewrite E2. cbn [fst snd].
  assert (Hseq : seq 1 m = seq 1 (m - 1) ++ [m]).
  { replace m with ((m - 1) + 1) at 1 by lia. rewrite seq_app.
    simpl. now replace (S (m - 1)) with m by lia. }
  split; [|split].
  - rewrite Hseq, flat_map_app. simpl. now rewrite app_nil_r.
  - rewrite !CrawlFacts.requests_app, R, R2, Hseq, map_app. simpl.
    rewrite ?app_nil_r. reflexivity.
  - intros H. apply in_app_or in H as [H|H]; [contradiction|].
    apply in_app_or in H as [H|H]; [contradiction|].
    simpl in H. destruct H as [H|[]]. discriminate.
Qed.

(** The fixture catalog: page 1 with a record and a next link, page 2
    without any readable fragment. *)
Lemma crawl_collects_pages_in_order_witness :
  snd (SuumoScraper.scrape_properties 4 Fixtures.driver_ending
         Fixtures.search)
    = Some (Ok (flat_map
                  (SuumoScraper.page_properties Fixtures.driver_ending
                     Fixtures.search) [1; 2]))
  /\ SuumoScraper.requests
       (fst (SuumoScraper.scrape_properties 4 Fixtures.driver_ending
               Fixtures.search))
     = [SuumoScraper.page_url Fixtures.search 1;
        SuumoScraper.page_url Fixtures.search 2]
  /\ ~ In LogError
         (fst (SuumoScraper.scrape_properties 4 Fixtures.driver_ending
                 Fixtures.search)).
Proof.
  apply (crawl_collects_pages_in_order Fixtures.driver_ending
           Fixtures.search 2 4).
  - lia.
  - lia.
  - intros k Hk. assert (k = 1) by lia. subst k. reflexivity.
  - split; [eexists; reflexivity|reflexivity].
Defined.

(** X7. Whatever the crawl returns, it is the records of the pages 1 to
    m, page by page, for some m; and every record found on page k has no
    'is_new' key and carries the search parameters of that very page:
    the configured parameters with 'page' set to k. *)
Theorem scraped_records_are_fresh :
  forall (fuel : nat) (d : driver) (p : params) (recs : list property_info),
    snd (SuumoScraper.scrape_properties fuel d p) = Some (Ok recs) ->
    (exists m,
       1 <= m /\ m <= fuel
       /\ recs = flat_map (SuumoScraper.page_properties d p) (seq 1 m))
    /\ (forall k,
          Forall (fun r => p_is_new r = None
                           /\ p_search_params r
                              = SuumoScraper.dict_set p "page" (PyStr.str k))
                 (SuumoScraper.page_properties d p k))
    /\ Forall (fun r => exists k,
                  1 <= k <= fuel
                  /\ In r (SuumoScraper.page_properties d p k)
                  /\ p_is_new r = None
                  /\ p_search_params r
                     = SuumoScraper.dict_set p "page" (PyStr.str k))
              recs.
Proof.
  intros fuel d p recs H.
  destruct (CrawlMore.scrape_loop_pages fuel d p 1 [] recs H)
    as [m [Hm [Hf E]]].
  cbn [app] in E.
  split; [exists m; now repeat split|].
  split; [intros k; apply CrawlMore.page_properties_fresh|].
  apply Forall_forall. intros r Hr. rewrite E in Hr.
  apply in_flat_map in Hr as [k [Hk Hin]]. apply in_seq in Hk.
  exists k. split; [lia|]. split; [exact Hin|].
  pose proof (CrawlMore.page_properties_fresh d p k) as F.
  rewrite Forall_forall in F. exact (F r Hin).
Qed.

(** The two-page fixture catalog: the records of page 1 carry page=1,
    the record of page 2 carries page=2. *)
Lemma scraped_records_are_fresh_witness :
  map p_search_params
    (SuumoScraper.page_properties MainFixtures.driver_two_pages
       Fixtures.search 1
     ++ SuumoScraper.page_properties MainFixtures.driver_two_pages
          Fixtures.search 2)
  = [[("ar", "030"); ("bs", "040"); ("cb", ""); ("page", "1")];
     [("ar", "030"); ("bs", "040"); ("cb", ""); ("page", "1")];
     [("ar", "030"); ("bs", "040"); ("cb", ""); ("page", "2")]]
  /\ exists m,
       1 <= m /\ m <= 5
       /\ SuumoScraper.page_properties MainFixtures.driver_two_pages
            Fixtures.search 1
          ++ SuumoScraper.page_properties MainFixtures.driver_two_pages
               Fixtures.search 2
          = flat_map
              (SuumoScraper.page_properties MainFixtures.driver_two_pages
                 Fixtures.search)
              (seq 1 m).
Proof.
  split; [reflexivity|].
  exact (proj1 (scraped_records_are_fresh 5 MainFixtures.driver_two_pages
                  Fixtures.search _ eq_refl)).
Defined.


(** X8. Different page numbers give different request URLs, whatever the
    configured parameters; and every request URL carries a query string
    (the 'page' entry is never omitted). *)
Theorem page_url_injective :
  forall (p : params) (n m : nat),
    (SuumoScraper.page_url p n = SuumoScraper.page_url p m -> n = m)
    /\ SuumoScraper.page_url p n <> SuumoScraper.base_url.
Proof.
  intros p n m. destruct (UrlBuild.page_url_shape p) as [pre [post H]].
  split.
  - intros E. rewrite !H in E.
    apply StringFacts.app_inv_head_s in E.
    apply StringFacts.app_inv_tail_s in E.
    now apply StringFacts.str_inj.
  - intros E. unfold SuumoScraper.page_url, SuumoScraper.current_params,
      SuumoScraper.build_search_url in E.
    destruct (UrlBuild.query_params_page p) as [before [after Hq]].
    rewrite (Hq _ (StringFacts.str_nonempty n)) in E.
    destruct (before ++ ("page" ++ "=" ++ PyStr.str n)%string :: after)
      as [|y ys] eqn:Eq; [destruct before; discriminate|].
    apply (f_equal String.length) in E.
    rewrite !StringFacts.app_length_s in E. simpl in E. lia.
Qed.

(** X9. A 'page' entry in the configured parameters is overridden where
    it stands: its value never reaches the catalog (the request for page
    n and the parameters stored with the records of page n are the same
    whatever the configured value), and the entry keeps its place among
    the parameters, whereas parameters without such an entry get 'page'
    as their last one.  So a configured 'page' changes the order of the
    query string, and nothing else. *)
Theorem configured_page_is_overridden :
  forall (before after : params) (v : string) (n : nat),
    (forall kv, In kv before -> fst kv <> "page") ->
    SuumoScraper.current_params (before ++ ("page", v) :: after) n
      = before ++ ("page", PyStr.str n) :: after
    /\ SuumoScraper.current_params before n
       = before ++ [("page", PyStr.str n)]
    /\ (forall w,
          SuumoScraper.page_url (before ++ ("page", w) :: after) n
          = SuumoScraper.page_url (before ++ ("page", v) :: after) n)
    /\ (forall (p : params) (w : string),
          SuumoScraper.page_url (SuumoScraper.dict_set p "page" w) n
            = SuumoScraper.page_url p n
          /\ SuumoScraper.current_params (SuumoScraper.dict_set p "page" w) n
             = SuumoScraper.current_params p n).
Proof.
  intros before after v n Hb.
  unfold SuumoScraper.page_url, SuumoScraper.current_params.
  split; [now apply UrlBuild.dict_set_present|].
  split; [now apply UrlBuild.dict_set_absent|].
  split; [intros w; now rewrite !UrlBuild.dict_set_present|].
  intros p w. now rewrite UrlBuild.dict_set_twice.
Qed.

(** With 'page' configured first, page 1 is asked for with page=1 in
    front; without the entry, with page=1 at the end. *)
Lemma configured_page_is_overridden_witness :
  SuumoScraper.page_url [("page", "9"); ("ar", "030")] 1
    = "https://suumo.jp/jj/chintai/ichiran/FR301FC001/?page=1&ar=030"
  /\ SuumoScraper.page_url [("ar", "030")] 1
     = "https://suumo.jp/jj/chintai/ichiran/FR301FC001/?ar=030&page=1"
  /\ SuumoScraper.current_params [("page", "9"); ("ar", "030")] 1
     = [("page", "1"); ("ar", "030")].
Proof.
  split; [reflexivity|]. split; [reflexivity|].
  apply (configured_page_is_overridden [] [("ar", "030")] "9" 1).
  intros kv [].
Defined.


(** ** Sheets and notification *)

Module RowFacts.
Import SheetsManager DiffSpec.

(** The rows the loop collects, counted from its start row. *)
Lemma mark_loop_rows_spec : forall urls properties i r,
  In r (fst (mark_loop urls i properties)) <->
  i <= r /\ exists p, nth_error properties (r - i) = Some p
                      /\ is_absent urls p = true.
Proof.
  intros urls. induction properties as [|q rest IH]; intros i r; simpl.
  - split; [intros []|]. intros [_ [p [H _]]].
    destruct (r - i); discriminate.
  - specialize (IH (S i) r).
    destruct (mark_loop urls (S i) rest) as [rows rest'] eqn:E.
    cbn [fst] in IH. unfold is_absent at 1.
    destruct (url_in (p_url q) urls) eqn:Eq; cbn [fst].
    + rewrite IH. split.
      * intros [Hr [p [Hn Ha]]]. split; [lia|]. exists p.
        replace (r - i) with (S (r - S i)) by lia. now split.
      * intros [Hr [p [Hn Ha]]].
        destruct (r - i) as [|k] eqn:Ek.
        -- simpl in Hn. injection Hn as <-. unfold is_absent in Ha.
           rewrite Eq in Ha. discriminate.
        -- simpl in Hn. split; [lia|]. exists p.
           replace (r - S i) with k by lia. now split.
    + simpl. rewrite IH. split.
      * intros [<-|[Hr [p [Hn Ha]]]].
        -- split; [lia|]. exists q. rewrite Nat.sub_diag. split;
             [reflexivity|]. unfold is_absent. now rewrite Eq.
        -- split; [lia|]. exists p.
           replace (r - i) with (S (r - S i)) by lia. now split.
      * intros [Hr [p [Hn Ha]]].
        destruct (r - i) as [|k] eqn:Ek.
        -- left. lia.
        -- right. simpl in Hn. split; [lia|]. exists p.
           replace (r - S i) with k by lia. now split.
Qed.

(** Row [r] of the sheet (counted from 1) holds record [r - 4]. *)
Lemma sheet_row : forall properties url r p,
  4 <= r ->
  nth_error properties (r - 4) = Some p ->
  nth_error (sheet_values properties url) (r - 1)
  = Some (row_of (existsb has_is_new properties) p).
Proof.
  intros properties url r p Hr Hn. unfold sheet_values.
  replace (r - 1) with (S (S (S (r - 4)))) by lia.
  cbn [nth_error]. rewrite nth_error_map, Hn. reflexivity.
Qed.

End RowFacts.

(** X10. The rows marked as new are the rows of the new records in the
    sheet just written: row r (counted from 1, the records starting at row
    4 below the URL line, the blank line and the header) is collected by
    the loop of [_mark_new_properties] exactly when record r-4 exists and
    its URL is absent from the previous URLs, and that row of the written
    values is the row of this record. *)
Theorem new_rows_are_sheet_rows :
  forall (previous_urls : list (option string))
         (properties : list property_info) (search_url : string) (r : nat),
    In r (fst (SheetsManager.mark_loop previous_urls 4 properties)) <->
    4 <= r
    /\ exists p,
         nth_error properties (r - 4) = Some p
         /\ DiffSpec.is_absent previous_urls p = true
         /\ nth_error (SheetsManager.sheet_values properties search_url)
                      (r - 1)
            = Some (SheetsManager.row_of
                      (existsb SheetsManager.has_is_new properties) p).
Proof.
  intros urls properties url r. rewrite RowFacts.mark_loop_rows_spec.
  split; intros [Hr [p [Hn Ha]]]; (split; [exact Hr|]); exists p.
  - repeat split; try assumption. now apply RowFacts.sheet_row.
  - split; [exact Hn|]. tauto.
Qed.

Module ExportFacts.
Import SheetsManager DiffSpec.

Lemma untagged_not_has_is_new : forall properties,
  Forall untagged properties -> existsb has_is_new properties = false.
Proof.
  intros properties H. induction H as [|p rest Hp _ IH]; [reflexivity|].
  simpl. unfold has_is_new. now rewrite Hp.
Qed.

Lemma filter_all_new : forall properties,
  filter get_is_new (map set_is_new properties) = map set_is_new properties.
Proof.
  induction properties as [|p rest IH]; simpl; [reflexivity|].
  now rewrite IH.
Qed.

(** With records that carry no tag yet, a count returned with [Ok] is the
    number of records tagged afterwards. *)
Lemma mark_against_count : forall svc sid shid properties pd n l,
  Forall untagged properties ->
  mark_against svc sid shid properties pd = (Ok n, l) ->
  List.length (filter get_is_new l) = n /\ n <= List.length properties.
Proof.
  intros svc sid shid properties pd n l Hu H.
  assert (Hall : forall n l,
            _mark_all_as_new svc sid shid properties = (Ok n, l) ->
            List.length (filter get_is_new l) = n
            /\ n <= List.length properties).
  { clear H n l. intros n l H. unfold _mark_all_as_new in H.
    pose proof (length_seq (List.length properties) 4) as Hl.
    destruct (seq 4 (List.length properties)) as [|r rs] eqn:Es.
    - injection H as <- <-. simpl in Hl.
      destruct properties; [split; [reflexivity|lia]|discriminate].
    - destruct (_highlight_rows svc sid shid (r :: rs)); [|discriminate].
      injection H as <- <-. rewrite filter_all_new, length_map.
      simpl in *. split; lia. }
  unfold mark_against in H. destruct pd as [df|]; [|now apply Hall].
  destruct (Pandas.empty df); [now apply Hall|].
  unfold _mark_new_properties in H.
  destruct (Pandas.has_column df URL_KEY).
  - destruct (Pandas.column_tolist df URL_KEY) as [urls|]; [|discriminate].
    rewrite (DiffFacts.mark_loop_eq urls properties 4) in H.
    pose proof (DiffFacts.mark_loop_rows urls properties 4) as Hlen.
    pose proof (filter_length_le (is_absent urls) properties) as Hle.
    destruct (fst (mark_loop urls 4 properties)) as [|r rs] eqn:E.
    + injection H as <- <-. rewrite DiffFacts.untagged_count by exact Hu.
      simpl in Hlen. lia.
    + destruct (_highlight_rows svc sid shid (r :: rs)); [|discriminate].
      injection H as <- <-. rewrite DiffFacts.untagged_count by exact Hu.
      simpl in *. lia.
  - injection H as <- <-. split; [|lia].
    clear -Hu. induction Hu as [|p rest Hp _ IH]; [reflexivity|].
    simpl. unfold get_is_new at 1. now rewrite Hp.
Qed.

Lemma export_properties_count : forall svc c0 c properties sid url n l,
  Forall untagged properties ->
  export_properties svc c0 c properties sid url = (n, l) ->
  0 < n ->
  List.length (filter get_is_new l) = n /\ n <= List.length properties.
Proof.
  intros svc c0 c properties sid url n l Hu H Hn.
  unfold export_properties in H.
  destruct properties as [|p0 rest]; [injection H as <- _; lia|].
  destruct (_create_new_sheet svc sid (_get_sheet_name c0)) as [shid|];
    [|injection H as <- _; lia].
  destruct (_write_data svc sid (_get_sheet_name c0) (p0 :: rest) url);
    [|injection H as <- _; lia].
  destruct (_handle_new_properties svc c sid shid (p0 :: rest))
    as [[m|] l'] eqn:E; [|injection H as <- _; lia].
  injection H as <- <-. unfold _handle_new_properties in E.
  eapply mark_against_count; eassumption.
Qed.

End ExportFacts.

(** X11. When the new sheet cannot be created (a sheet of that name
    exists: a second run in the same half day) or the data cannot be
    written, [export_properties] returns 0, leaves the records untouched,
    and [export_to_sheets] notifies nobody. *)
Theorem export_failure_exports_nothing :
  forall (svc : sheets_service) (c_sheet c_diff : clock)
         (properties : list property_info)
         (spreadsheet_id search_url : string),
    SheetsManager._create_new_sheet svc spreadsheet_id
      (SheetsManager._get_sheet_name c_sheet) = Raised
    \/ SheetsManager._write_data svc spreadsheet_id
         (SheetsManager._get_sheet_name c_sheet) properties search_url
       = Raised ->
    SheetsManager.export_properties svc c_sheet c_diff properties
      spreadsheet_id search_url = (0, properties)
    /\ out_notified
         (SuumoExport.export_to_sheets svc c_sheet c_diff properties
            spreadsheet_id search_url) = None.
Proof.
  intros svc c c' properties sid url H.
  assert (E : SheetsManager.export_properties svc c c' properties sid url
              = (0, properties)).
  { unfold SheetsManager.export_properties.
    destruct properties as [|p0 rest]; [reflexivity|].
    destruct H as [H|H].
    - now rewrite H.
    - destruct (SheetsManager._create_new_sheet svc sid _); [|reflexivity].
      now rewrite H. }
  split; [exact E|].
  unfold SuumoExport.export_to_sheets. now rewrite E.
Qed.

Lemma export_failure_exports_nothing_witness :
  SheetsManager.export_properties ExportFixtures.service_sheet_exists
    Fixtures.evening Fixtures.evening Fixtures.current_run "id" "u"
  = (0, Fixtures.current_run).
Proof.
  exact (proj1 (export_failure_exports_nothing
                  ExportFixtures.service_sheet_exists Fixtures.evening
                  Fixtures.evening Fixtures.current_run "id" "u"
                  (or_introl eq_refl))).
Defined.

(** X12. When the formatting request raises, the two branches differ in
    what they leave behind: on the cold-start branch the records stay
    untagged (the rows are formatted before the records are tagged), on the
    comparison branch the new records are tagged already; both raise. *)
Theorem formatting_failure_leaves_tags :
  forall (svc : sheets_service) (c : clock) (spreadsheet_id : string)
         (sheet_id : Z) (properties : list property_info),
    (forall rows, repeat_cells svc spreadsheet_id sheet_id rows = Raised) ->
    properties <> [] ->
    let previous_data :=
      SheetsManager._get_previous_data svc spreadsheet_id
        (SheetsManager.target_sheet c) in
    let run :=
      SheetsManager._handle_new_properties svc c spreadsheet_id sheet_id
        properties in
    (DiffSpec.no_previous_data previous_data -> run = (Raised, properties))
    /\ (forall df previous_urls,
          previous_data = Some df ->
          Pandas.empty df = false ->
          Pandas.column_tolist df SheetsManager.URL_KEY = Ok previous_urls ->
          (exists p, In p properties
                     /\ DiffSpec.is_absent previous_urls p = true) ->
          run = (Raised, map (DiffSpec.tag_new previous_urls) properties)).
Proof.
  intros svc c sid shid properties Hh Hne previous_data run.
  assert (Hall : SheetsManager._mark_all_as_new svc sid shid properties
                 = (Raised, properties)).
  { unfold SheetsManager._mark_all_as_new.
    destruct properties as [|p0 rest]; [contradiction|].
    cbn [List.length seq]. unfold SheetsManager._highlight_rows.
    now rewrite Hh. }
  split.
  - intros Hno. unfold run, SheetsManager._handle_new_properties,
      SheetsManager.mark_against. fold previous_data.
    destruct previous_data as [df|]; [|exact Hall].
    simpl in Hno. now rewrite Hno.
  - intros df urls Hp He Hc [p [Hin Ha]].
    unfold run, SheetsManager._handle_new_properties,
      SheetsManager.mark_against. fold previous_data. rewrite Hp, He.
    unfold SheetsManager._mark_new_properties.
    rewrite (DiffFacts.column_has _ _ _ Hc), Hc.
    rewrite (DiffFacts.mark_loop_eq urls properties 4).
    pose proof (DiffFacts.mark_loop_rows urls properties 4) as Hlen.
    destruct (fst (SheetsManager.mark_loop urls 4 properties))
      as [|r rs] eqn:E.
    + exfalso. assert (Hf : In p (filter (DiffSpec.is_absent urls)
                                    properties))
        by (apply filter_In; now split).
      destruct (filter (DiffSpec.is_absent urls) properties);
        [contradiction|discriminate].
    + unfold SheetsManager._highlight_rows. now rewrite Hh.
Qed.

Lemma formatting_failure_leaves_tags_witness :
  SheetsManager._handle_new_properties ExportFixtures.service_no_format
    Fixtures.evening "id" 7 Fixtures.current_run
  = (Raised, [Fixtures.rec_A; SheetsManager.set_is_new Fixtures.rec_C;
              SheetsManager.set_is_new Fixtures.rec_D])
  /\ SheetsManager._handle_new_properties ExportFixtures.service_no_format
       Fixtures.morning "id" 7 Fixtures.current_run
     = (Raised, Fixtures.current_run).
Proof.
  split.
  - refine (proj2 (formatting_failure_leaves_tags
                     ExportFixtures.service_no_format Fixtures.evening "id" 7
                     Fixtures.current_run (fun _ => eq_refl) _)
              _ [Some SheetsManager.URL_KEY; Some Fixtures.url_A;
                 Some Fixtures.url_B] eq_refl eq_refl eq_refl _).
    + discriminate.
    + exists Fixtures.rec_C. split; [right; left; reflexivity|reflexivity].
  - refine (proj1 (formatting_failure_leaves_tags
                     ExportFixtures.service_no_format Fixtures.morning "id" 7
                     Fixtures.current_run (fun _ => eq_refl) _) I).
    discriminate.
Defined.

(** X13. For records that come without a tag (as every crawl returns
    them), the count is at most the number of records, and when a
    notification is made it is made with exactly as many records as the
    count says, which is the total the message states. *)
Theorem notification_total_is_count :
  forall (svc : sheets_service) (c_sheet c_diff : clock)
         (properties : list property_info)
         (spreadsheet_id search_url : string),
    Forall DiffSpec.untagged properties ->
    let out :=
      SuumoExport.export_to_sheets svc c_sheet c_diff properties
        spreadsheet_id search_url in
    out_count out <= List.length properties
    /\ (forall new_properties sheet_url,
          out_notified out = Some (new_properties, sheet_url) ->
          List.length new_properties = out_count out
          /\ exists m,
               NotificationService.send_notification new_properties
                 sheet_url = Some m
               /\ msg_total_count m = out_count out).
Proof.
  intros svc c0 c properties sid url Hu out. unfold out.
  unfold SuumoExport.export_to_sheets.
  destruct (SheetsManager.export_properties svc c0 c properties sid url)
    as [n l] eqn:E.
  destruct (Nat.ltb 0 n) eqn:Hn; cbn [out_count out_notified].
  - apply Nat.ltb_lt in Hn.
    destruct (ExportFacts.export_properties_count _ _ _ _ _ _ _ _ Hu E Hn)
      as [Hc Hle].
    split; [exact Hle|]. intros nps sheet_url H. injection H as <- <-.
    split; [exact Hc|].
    unfold NotificationService.send_notification.
    destruct (filter SheetsManager.get_is_new l) as [|x xs] eqn:F;
      [simpl in Hc; lia|].
    eexists. split; [reflexivity|]. exact Hc.
  - apply Nat.ltb_ge in Hn. split; [lia|]. intros nps sheet_url H.
    discriminate.
Qed.

Lemma notification_total_is_count_witness :
  out_count
    (SuumoExport.export_to_sheets Fixtures.service_AB Fixtures.evening
       Fixtures.evening Fixtures.current_run "id" "u") <= 3.
Proof.
  apply (notification_total_is_count Fixtures.service_AB Fixtures.evening
           Fixtures.evening Fixtures.current_run "id" "u").
  repeat constructor.
Defined.

(** X14. The mail never lists more than five records: up to five new
    records are all listed, in order and without the "first five only"
    note; beyond five, the first five are listed and the note is shown; in
    both cases the total stated is the number of new records; for no
    record, no mail is composed. *)
Theorem message_lists_first_five :
  forall (new_properties : list property_info) (sheet_url : string),
    match NotificationService.send_notification new_properties sheet_url with
    | None => new_properties = []
    | Some m =>
        new_properties <> []
        /\ msg_total_count m = List.length new_properties
        /\ msg_sheet_url m = sheet_url
        /\ (List.length new_properties <= 5 ->
            msg_display_properties m = new_properties
            /\ msg_truncated_note m = false)
        /\ (5 < List.length new_properties ->
            msg_display_properties m = firstn 5 new_properties
            /\ List.length (msg_display_properties m) = 5
            /\ msg_truncated_note m = true)
    end.
Proof.
  intros nps url. unfold NotificationService.send_notification.
  destruct nps as [|x xs]; [reflexivity|].
  cbn [msg_total_count msg_sheet_url msg_display_properties
       msg_truncated_note].
  split; [discriminate|]. split; [reflexivity|]. split; [reflexivity|].
  unfold NotificationService.max_properties. split.
  - intros Hle. split; [now apply firstn_all2|].
    apply Nat.ltb_ge. exact Hle.
  - intros Hlt. split; [reflexivity|]. split.
    + apply firstn_length_le. lia.
    + apply Nat.ltb_lt. exact Hlt.
Qed.

Lemma message_lists_first_five_witness :
  exists m,
    NotificationService.send_notification ExportFixtures.seven "s" = Some m
    /\ List.length (msg_display_properties m) = 5
    /\ msg_truncated_note m = true
    /\ msg_total_count m = 7.
Proof.
  pose proof (message_lists_first_five ExportFixtures.seven "s") as H.
  cbv beta iota delta [NotificationService.send_notification
                         ExportFixtures.seven map] in H.
  eexists. split; [reflexivity|].
  destruct H as [_ [Ht [_ [_ H5]]]].
  destruct H5 as [_ [Hl Hn]]; [simpl; lia|].
  split; [exact Hl|]. split; [exact Hn|exact Ht].
Defined.


(** ** From one run to the next *)

Module RegistryFacts.
Import SheetsManager DiffSpec RegistrySpec.

Lemma trim_length : forall row,
  List.length (trim_row row) <= List.length row.
Proof.
  induction row as [|c rest IH]; simpl; [lia|].
  destruct (trim_row rest); simpl in *; [destruct c; simpl; lia|lia].
Qed.

(** Trimming keeps every cell that is not empty at its place. *)
Lemma nth_trim : forall row i x,
  nth_error row i = Some x -> x <> EmptyString ->
  nth_error (trim_row row) i = Some x.
Proof.
  induction row as [|c rest IH]; intros i x H Hx;
    [destruct i; discriminate|].
  destruct i as [|i]; simpl in H.
  - injection H as ->. simpl.
    destruct (trim_row rest); [destruct x; [contradiction|]|]; reflexivity.
  - specialize (IH i x H Hx). simpl.
    destruct (trim_row rest); [destruct i; discriminate|exact IH].
Qed.

Lemma nth_pad : forall w row i x,
  nth_error row i = Some x -> i < w ->
  nth i (Pandas.pad w row) None = Some x.
Proof.
  induction w as [|w IH]; intros row i x H Hi; [lia|].
  destruct row as [|c rest]; [destruct i; discriminate|].
  destruct i as [|i]; simpl in *.
  - now injection H as ->.
  - apply IH; [exact H|lia].
Qed.

Lemma DataFrame_of_ok : forall data cols,
  (forall r, In r data -> List.length r <= List.length cols) ->
  Pandas.DataFrame_of data cols
  = Ok {| columns := cols;
          rows := map (Pandas.pad (List.length cols)) data |}.
Proof.
  intros data cols H. unfold Pandas.DataFrame_of.
  destruct (existsb _ data) eqn:E; [|reflexivity].
  apply existsb_exists in E as [r [Hin Hr]].
  apply Nat.ltb_lt in Hr. specialize (H r Hin). lia.
Qed.

Lemma read_back_rows : forall prev url,
  Forall (fun p => p_is_new p = None /\ p_url p <> EmptyString) prev ->
  read_back (sheet_values prev url)
  = trim_row [("スクレイピングURL: " ++ url)%string] :: []
    :: labels
    :: map (fun p => trim_row (map cell_as_read (row_of false p))) prev.
Proof.
  intros prev url H.
  assert (Hflag : existsb has_is_new prev = false).
  { apply ExportFacts.untagged_not_has_is_new.
    eapply Forall_impl; [|exact H]. now intros p [Hp _]. }
  unfold read_back, sheet_values, output_columns. rewrite Hflag.
  cbn [map]. f_equal. f_equal. f_equal. apply map_map.
Qed.

(** The frame read from the sheet of a run whose records have no tag and
    no empty URL. *)
Lemma read_back_frame : forall svc sid target prev url,
  Forall (fun p => p_is_new p = None /\ p_url p <> EmptyString) prev ->
  values_get svc sid (target ++ "!A:Z")%string
    = GetValues (read_back (sheet_values prev url)) ->
  exists df,
    _get_previous_data svc sid target = Some df
    /\ Pandas.empty df = false
    /\ Pandas.column_tolist df URL_KEY
       = Ok (Some URL_KEY :: map (fun p => Some (p_url p)) prev).
Proof.
  intros svc sid target prev url H Hv.
  unfold _get_previous_data. rewrite Hv, (read_back_rows prev url H).
  cbn [nth_error skipn].
  rewrite DataFrame_of_ok.
  - eexists. split; [reflexivity|]. split; [reflexivity|].
    unfold Pandas.column_tolist. cbn [columns rows].
    change (Pandas.positions URL_KEY labels 0) with [10].
    cbn [map]. apply f_equal. apply f_equal2; [reflexivity|].
    rewrite !map_map. apply map_ext_in. intros p0 Hin.
    rewrite Forall_forall in H. destruct (H p0 Hin) as [_ Hne].
    apply nth_pad; [|simpl; lia].
    apply nth_trim; [reflexivity|exact Hne].
  - intros r [<-|Hin]; [simpl; lia|].
    apply in_map_iff in Hin as [p0 [<- _]].
    etransitivity; [apply trim_length|]. simpl. lia.
Qed.



End RegistryFacts.

(** X15. What one run writes, the next run reads: for records without tag
    and with a non-empty URL, when the service returns the written rows
    (empty cells at the end of a row left out), [_get_previous_data] gives
    a frame that is not empty and whose '物件URL' column reads as the
    label '物件URL' itself followed by the URLs of the records, in order. *)
Theorem written_urls_are_read_back :
  forall (svc : sheets_service) (spreadsheet_id target : string)
         (previous : list property_info) (search_url : string),
    Forall (fun p => p_is_new p = None /\ p_url p <> EmptyString) previous ->
    values_get svc spreadsheet_id (target ++ "!A:Z")%string
      = GetValues
          (RegistrySpec.read_back
             (SheetsManager.sheet_values previous search_url)) ->
    exists df,
      SheetsManager._get_previous_data svc spreadsheet_id target = Some df
      /\ Pandas.empty df = false
      /\ Pandas.column_tolist df SheetsManager.URL_KEY
         = Ok (Some SheetsManager.URL_KEY
               :: map (fun p => Some (p_url p)) previous).
Proof.
  intros svc sid target previous url H Hv.
  destruct (RegistryFacts.read_back_frame svc sid target previous url H Hv)
    as [df [H1 [H2 H3]]].
  exists df. repeat split; assumption.
Qed.

Lemma written_urls_are_read_back_witness :
  exists df,
    SheetsManager._get_previous_data RegistryFixtures.service_read_back "id"
      "2024/05/10/AM" = Some df
    /\ Pandas.empty df = false
    /\ Pandas.column_tolist df SheetsManager.URL_KEY
       = Ok [Some SheetsManager.URL_KEY; Some Fixtures.url_A;
             Some Fixtures.url_B].
Proof.
  apply (written_urls_are_read_back RegistryFixtures.service_read_back "id"
           "2024/05/10/AM" Fixtures.previous_run "u").
  - repeat constructor; discriminate.
  - reflexivity.
Defined.




Module PriorRunFacts.
Import SheetsManager DiffSpec.





End PriorRunFacts.





(** ** Which sheet a run compares with *)

Module SlotMore.
Import SheetsManager SlotSpec.

(** A name ending in /AM is not a name ending in /PM. *)
Lemma suffix_differs : forall a b : string,
  (a ++ "/AM")%string <> (b ++ "/PM")%string.
Proof.
  induction a as [|x a IH]; intros b H.
  - destruct b as [|y b]; [discriminate|].
    apply (f_equal String.length) in H. simpl in H.
    rewrite StringFacts.app_length_s in H. simpl in H.
    destruct b as [|z b]; simpl in H; [discriminate|].
    simpl in H. lia.
  - destruct b as [|y b].
    + simpl in H. injection H as _ H.
      apply (f_equal String.length) in H.
      rewrite StringFacts.app_length_s in H. simpl in H. lia.
    + simpl in H. injection H as _ H. exact (IH b H).
Qed.

Lemma target_sheet_suffix : forall c,
  exists d,
    match current_slot c with
    | AM => target_sheet c = (d ++ "/PM")%string
    | PM => target_sheet c = (d ++ "/AM")%string
    end.
Proof.
  intros c. unfold current_slot, target_sheet.
  destruct (PyTime.local_hour (utc_offset c) (time_time c) <? 12)%Z;
    eexists; reflexivity.
Qed.

Lemma get_sheet_name_suffix : forall c,
  exists d,
    match current_slot c with
    | AM => _get_sheet_name c = (d ++ "/AM")%string
    | PM => _get_sheet_name c = (d ++ "/PM")%string
    end.
Proof.
  intros c. unfold current_slot, _get_sheet_name.
  destruct (PyTime.local_hour (utc_offset c) (time_time c) <? 12)%Z;
    eexists; reflexivity.
Qed.

End SlotMore.

(** X17. The clock is read once to name the sheet of the run and once
    more, after that sheet has been created and written, to pick the sheet
    to compare with.  When both reads fall in the same half of the day, in
    every zone, the sheet compared with is not the sheet of the run: a
    morning run compares with a sheet named .../PM and an afternoon run
    with a sheet named .../AM.  A run that compares with its own sheet has
    therefore passed noon or midnight between the two reads, and such a
    run does: named at 11:59:59 and compared at 12:00:01, it takes its own
    sheet as the previous one. *)
Theorem previous_sheet_differs_within_half_day :
  forall c_sheet c_diff : clock,
    ((PyTime.local_hour (utc_offset c_sheet) (time_time c_sheet) <? 12)%Z
       = (PyTime.local_hour (utc_offset c_diff) (time_time c_diff) <? 12)%Z ->
     SheetsManager.target_sheet c_diff
       <> SheetsManager._get_sheet_name c_sheet)
    /\ (exists d,
          match SlotSpec.current_slot c_diff with
          | SlotSpec.AM =>
              SheetsManager.target_sheet c_diff = (d ++ "/PM")%string
          | SlotSpec.PM =>
              SheetsManager.target_sheet c_diff = (d ++ "/AM")%string
          end)
    /\ SheetsManager.target_sheet Fixtures.after_noon
       = SheetsManager._get_sheet_name Fixtures.before_noon.
Proof.
  intros c0 c. split; [|split; [apply SlotMore.target_sheet_suffix|]].
  - intros Hs.
    destruct (SlotMore.target_sheet_suffix c) as [d Ht].
    destruct (SlotMore.get_sheet_name_suffix c0) as [e Hn].
    unfold SlotSpec.current_slot in Ht, Hn. rewrite Hs in Hn.
    destruct (PyTime.local_hour (utc_offset c) (time_time c) <? 12)%Z;
      rewrite Ht, Hn; intros H.
    + symmetry in H. exact (SlotMore.suffix_differs _ _ H).
    + exact (SlotMore.suffix_differs _ _ H).
  - reflexivity.
Qed.

(** An evening run that reads the clock twice at 18:00 compares with the
    morning sheet, not with its own. *)
Lemma previous_sheet_differs_within_half_day_witness :
  SheetsManager.target_sheet Fixtures.evening = "2024/05/10/AM"
  /\ SheetsManager._get_sheet_name Fixtures.evening = "2024/05/10/PM"
  /\ SheetsManager.target_sheet Fixtures.evening
     <> SheetsManager._get_sheet_name Fixtures.evening.
Proof.
  split; [reflexivity|]. split; [reflexivity|].
  apply (previous_sheet_differs_within_half_day Fixtures.evening
           Fixtures.evening).
  reflexivity.
Defined.

(** X18. The slot rule where the local UTC offset is what it was 24 hours
    earlier (always so without daylight saving time, as in Japan): a
    morning run compares with the afternoon sheet of the previous calendar
    day; an afternoon run compares with the morning sheet of the same day,
    in every zone. *)
Theorem previous_sheet_rule :
  forall c : clock,
    (SlotSpec.current_slot c = SlotSpec.PM ->
     SheetsManager.target_sheet c
       = SlotSpec.sheet_name_of (SlotSpec.current_day c) SlotSpec.AM)
    /\ (SlotSpec.current_slot c = SlotSpec.AM ->
        utc_offset c (time_time c - 24 * 60 * 60)%Z
          = utc_offset c (time_time c) ->
        SheetsManager.target_sheet c
          = SlotSpec.sheet_name_of (SlotSpec.current_day c - 1) SlotSpec.PM).
Proof.
  intros c. split.
  - apply SlotFacts.target_sheet_pm.
  - apply SlotFacts.target_sheet_am.
Qed.

(** 2024-05-10 in Japan: the 06:00 run compares with 2024/05/09/PM, the
    18:00 run with 2024/05/10/AM. *)
Lemma previous_sheet_rule_witness :
  SheetsManager.target_sheet Fixtures.morning = "2024/05/09/PM"
  /\ SheetsManager.target_sheet Fixtures.evening = "2024/05/10/AM".
Proof.
  split.
  - rewrite (proj2 (previous_sheet_rule Fixtures.morning) eq_refl eq_refl).
    reflexivity.
  - rewrite (proj1 (previous_sheet_rule Fixtures.evening) eq_refl).
    reflexivity.
Defined.

(** X19. A sheet that cannot be read (it does not exist), that holds no
    values, or that holds fewer than three rows counts as no previous run:
    [_get_previous_data] gives [None] and, the formatting request
    succeeding, every current record is tagged and their number
    returned. *)
Theorem unreadable_sheet_is_cold_start :
  forall (svc : sheets_service) (c : clock) (spreadsheet_id : string)
         (sheet_id : Z) (properties : list property_info),
    match values_get svc spreadsheet_id
            (SheetsManager.target_sheet c ++ "!A:Z")%string with
    | GetRaised | GetNoValues => True
    | GetValues values => List.length values < 3
    end ->
    DiffSpec.highlight_succeeds svc spreadsheet_id sheet_id ->
    SheetsManager._get_previous_data svc spreadsheet_id
      (SheetsManager.target_sheet c) = None
    /\ SheetsManager._handle_new_properties svc c spreadsheet_id sheet_id
         properties
       = (Ok (List.length properties),
          map SheetsManager.set_is_new properties).
Proof.
  intros svc c sid shid properties Hv Hh.
  pose proof (DiffFacts.get_previous_data_not_found svc sid
                (SheetsManager.target_sheet c) Hv) as Hn.
  split; [exact Hn|].
  unfold SheetsManager._handle_new_properties. rewrite Hn.
  unfold SheetsManager.mark_against.
  now apply DiffFacts.mark_all_as_new_ok.
Qed.

Lemma unreadable_sheet_is_cold_start_witness :
  SheetsManager._handle_new_properties RegistryFixtures.service_short_sheet
    Fixtures.evening "id" 7 Fixtures.current_run
  = (Ok 3, map SheetsManager.set_is_new Fixtures.current_run).
Proof.
  refine (proj2 (unreadable_sheet_is_cold_start
                   RegistryFixtures.service_short_sheet Fixtures.evening
                   "id" 7 Fixtures.current_run _ (fun _ => eq_refl))).
  simpl. lia.
Defined.


Module HeaderFacts.
Import SheetsManager.

(** A position listed for a label holds that label. *)
Lemma positions_sound : forall name cols k i,
  In i (Pandas.positions name cols k) ->
  k <= i /\ nth_error cols (i - k) = Some name.
Proof.
  intros name. induction cols as [|c cols IH]; intros k i H; simpl in H;
    [contradiction|].
  destruct (String.eqb name c) eqn:E.
  - destruct H as [<-|H].
    + apply String.eqb_eq in E. subst c. rewrite Nat.sub_diag.
      split; [lia|reflexivity].
    + destruct (IH (S k) i H) as [Hk Hn]. split; [lia|].
      replace (i - k) with (S (i - S k)) by lia. exact Hn.
  - destruct (IH (S k) i H) as [Hk Hn]. split; [lia|].
    replace (i - k) with (S (i - S k)) by lia. exact Hn.
Qed.

Lemma nth_map_some : forall (cols : list string) i name,
  nth_error cols i = Some name ->
  nth i (map Some cols) None = Some name.
Proof.
  induction cols as [|c cols IH]; intros i name H;
    [destruct i; discriminate|].
  destruct i as [|i]; simpl in *; [congruence|now apply IH].
Qed.

(** What [_get_previous_data] returns when it returns a frame. *)
Lemma get_previous_data_frame : forall svc sid target df,
  _get_previous_data svc sid target = Some df ->
  exists rest, rows df = map Some (columns df) :: rest.
Proof.
  intros svc sid target df H. unfold _get_previous_data in H.
  destruct (values_get svc sid (target ++ "!A:Z")%string)
    as [| |values] eqn:Hv; try discriminate.
  destruct (nth_error values 2) as [header|] eqn:Hh; [|discriminate].
  assert (Hs : _get_previous_data svc sid target = Some df).
  { unfold _get_previous_data. now rewrite Hv, Hh. }
  destruct (DiffFacts.get_previous_data_keeps_header svc sid target values
              header df Hv Hh Hs) as [Hc [rest Hr]].
  exists rest. now rewrite Hc.
Qed.

End HeaderFacts.

(** X20. The header row of the previous sheet is compared too: whenever a
    previous frame is found and its '物件URL' column can be read, the
    label '物件URL' itself is among the previous URLs, so a current record
    whose URL is that label is left untagged. *)
Theorem header_label_counts_as_seen :
  forall (svc : sheets_service) (spreadsheet_id target : string)
         (df : DataFrame) (previous_urls : list (option string))
         (p : property_info),
    SheetsManager._get_previous_data svc spreadsheet_id target = Some df ->
    Pandas.column_tolist df SheetsManager.URL_KEY = Ok previous_urls ->
    In (Some SheetsManager.URL_KEY) previous_urls
    /\ (p_url p = SheetsManager.URL_KEY ->
        DiffSpec.tag_new previous_urls p = p).
Proof.
  intros svc sid target df urls p Hd Hc.
  assert (Hin : In (Some SheetsManager.URL_KEY) urls).
  { destruct (HeaderFacts.get_previous_data_frame _ _ _ _ Hd) as [rest Hr].
    unfold Pandas.column_tolist in Hc.
    destruct (Pandas.positions SheetsManager.URL_KEY (columns df) 0)
      as [|i [|j js]] eqn:Ep; try discriminate.
    injection Hc as <-. rewrite Hr. left.
    destruct (HeaderFacts.positions_sound SheetsManager.URL_KEY
                (columns df) 0 i) as [_ Hn]; [rewrite Ep; now left|].
    rewrite Nat.sub_0_r in Hn. now apply HeaderFacts.nth_map_some. }
  split; [exact Hin|]. intros Hp. unfold DiffSpec.tag_new. rewrite Hp.
  now rewrite (proj2 (DiffFacts.url_in_iff _ _) Hin).
Qed.

Lemma header_label_counts_as_seen_witness :
  DiffSpec.tag_new
    [Some SheetsManager.URL_KEY; Some Fixtures.url_A; Some Fixtures.url_B]
    RegistryFixtures.rec_label
  = RegistryFixtures.rec_label.
Proof.
  refine (proj2 (header_label_counts_as_seen Fixtures.service_AB "id"
                   "2024/05/10/AM" _ _ RegistryFixtures.rec_label
                   eq_refl eq_refl) eq_refl).
Defined.

Module QueryFacts.
Import SuumoScraper QuerySpec.

Lemma query_params_filter : forall p : params,
  query_params p = query_params (filter has_value p).
Proof.
  induction p as [|[k v] rest IH]; simpl; [reflexivity|].
  destruct v as [|c v]; simpl; [exact IH|]. now rewrite IH.
Qed.

Lemma query_params_length : forall p : params,
  List.length (query_params p) = List.length (filter has_value p).
Proof.
  induction p as [|[k v] rest IH]; simpl; [reflexivity|].
  destruct v as [|c v]; simpl; [exact IH|]. now rewrite IH.
Qed.

End QueryFacts.

(** X21. Parameters with an empty value are left out of the search URL:
    the URL is the one built from the parameters that have a value, it has
    one key=value piece per such parameter, and it is the bare catalog
    address, without '?', when no parameter has a value. *)
Theorem empty_parameters_are_omitted :
  forall p : params,
    SuumoScraper.build_search_url p
      = SuumoScraper.build_search_url (filter QuerySpec.has_value p)
    /\ List.length (SuumoScraper.query_params p)
       = List.length (filter QuerySpec.has_value p)
    /\ (filter QuerySpec.has_value p = [] <->
        SuumoScraper.build_search_url p = SuumoScraper.base_url).
Proof.
  intros p. unfold SuumoScraper.build_search_url.
  rewrite <- QueryFacts.query_params_filter.
  split; [reflexivity|]. split; [apply QueryFacts.query_params_length|].
  pose proof (QueryFacts.query_params_length p) as Hl.
  destruct (SuumoScraper.query_params p) as [|q qs] eqn:E.
  - split; [reflexivity|]. intros _.
    destruct (filter QuerySpec.has_value p); [reflexivity|discriminate].
  - split.
    + intros Hf. rewrite Hf in Hl. discriminate.
    + intros H. apply (f_equal String.length) in H.
      rewrite StringFacts.app_length_s in H. simpl in H. lia.
Qed.

Module TagFacts.
Import SheetsManager DiffSpec TagSpec.

Lemma only_tagged_refl : forall l, Forall2 only_tagged l l.
Proof. induction l; constructor; [now left|assumption]. Qed.

Lemma only_tagged_map_set : forall l, Forall2 only_tagged l (map set_is_new l).
Proof. induction l; constructor; [now right|assumption]. Qed.

Lemma only_tagged_map_tag : forall urls l,
  Forall2 only_tagged l (map (tag_new urls) l).
Proof.
  intros urls. induction l as [|p l IH]; constructor; [|assumption].
  unfold only_tagged, tag_new. destruct (url_in (p_url p) urls); auto.
Qed.

Lemma mark_against_only_tags : forall svc sid shid properties pd,
  Forall2 only_tagged properties
    (snd (mark_against svc sid shid properties pd)).
Proof.
  intros svc sid shid properties pd.
  assert (Hall : Forall2 only_tagged properties
                   (snd (_mark_all_as_new svc sid shid properties))).
  { unfold _mark_all_as_new.
    destruct (seq 4 (List.length properties)); [apply only_tagged_refl|].
    destruct (_highlight_rows svc sid shid _); cbn [snd];
      [apply only_tagged_map_set|apply only_tagged_refl]. }
  unfold mark_against. destruct pd as [df|]; [|exact Hall].
  destruct (Pandas.empty df); [exact Hall|].
  unfold _mark_new_properties.
  destruct (Pandas.has_column df URL_KEY); [|apply only_tagged_refl].
  destruct (Pandas.column_tolist df URL_KEY) as [urls|];
    [|apply only_tagged_refl].
  rewrite (DiffFacts.mark_loop_eq urls properties 4).
  destruct (fst (mark_loop urls 4 properties));
    [apply only_tagged_map_tag|].
  destruct (_highlight_rows svc sid shid _); apply only_tagged_map_tag.
Qed.

End TagFacts.

(** X22. Whatever the service answers, exporting changes nothing in the
    records but the tag: the records after [export_properties] are the
    records before, in the same order and number, each one either
    untouched or with 'is_new' set to True; no tag is ever removed and no
    other field is changed. *)
Theorem export_only_sets_tags :
  forall (svc : sheets_service) (c_sheet c_diff : clock)
         (properties : list property_info)
         (spreadsheet_id search_url : string),
    Forall2 (fun p q => q = p \/ q = SheetsManager.set_is_new p)
      properties
      (snd (SheetsManager.export_properties svc c_sheet c_diff properties
              spreadsheet_id search_url))
    /\ Forall2 (fun p q => p_url q = p_url p
                           /\ (SheetsManager.get_is_new p = true ->
                               SheetsManager.get_is_new q = true))
         properties
         (out_properties
            (SuumoExport.export_to_sheets svc c_sheet c_diff properties
               spreadsheet_id search_url)).
Proof.
  intros svc c0 c properties sid url.
  assert (H : Forall2 TagSpec.only_tagged properties
                (snd (SheetsManager.export_properties svc c0 c properties
                        sid url))).
  { unfold SheetsManager.export_properties.
    destruct properties as [|p0 rest]; [constructor|].
    destruct (SheetsManager._create_new_sheet svc sid _) as [shid|];
      [|apply TagFacts.only_tagged_refl].
    destruct (SheetsManager._write_data svc sid _ (p0 :: rest) url);
      [|apply TagFacts.only_tagged_refl].
    pose proof (TagFacts.mark_against_only_tags svc sid shid (p0 :: rest)
                  (SheetsManager._get_previous_data svc sid
                     (SheetsManager.target_sheet c))) as Hm.
    unfold SheetsManager._handle_new_properties.
    destruct (SheetsManager.mark_against svc sid shid (p0 :: rest) _)
      as [[n|] l]; exact Hm. }
  split; [exact H|].
  assert (E : out_properties
                (SuumoExport.export_to_sheets svc c0 c properties sid url)
              = snd (SheetsManager.export_properties svc c0 c properties
                       sid url)).
  { unfold SuumoExport.export_to_sheets.
    destruct (SheetsManager.export_properties svc c0 c properties sid url)
      as [n l]. now destruct (Nat.ltb 0 n). }
  rewrite E. eapply Forall2_impl; [|exact H].
  intros p q [ -> | -> ]; split; auto.
Qed.


(** ** The whole program *)

Module MainFacts.
Import SheetsManager DiffSpec.

Lemma filter_tagged : forall urls properties,
  Forall untagged properties ->
  filter get_is_new (map (tag_new urls) properties)
  = map set_is_new (filter (is_absent urls) properties).
Proof.
  intros urls properties H. induction H as [|p rest Hp _ IH];
    [reflexivity|].
  cbn [map filter]. unfold is_absent at 1.
  destruct (url_in (p_url p) urls) eqn:E; cbn [negb].
  - replace (tag_new urls p) with p by (unfold tag_new; now rewrite E).
    unfold get_is_new at 1. rewrite Hp. exact IH.
  - replace (tag_new urls p) with (set_is_new p)
      by (unfold tag_new; now rewrite E).
    change (get_is_new (set_is_new p)) with true. cbn [map].
    now rewrite IH.
Qed.

(** The diff of a run whose sheet was created and written. *)
Lemma export_properties_found :
  forall svc c0 c properties sid url shid df urls,
  _create_new_sheet svc sid (_get_sheet_name c0) = Ok shid ->
  _write_data svc sid (_get_sheet_name c0) properties url = Ok tt ->
  highlight_succeeds svc sid shid ->
  _get_previous_data svc sid (target_sheet c) = Some df ->
  Pandas.column_tolist df URL_KEY = Ok urls ->
  export_properties svc c0 c properties sid url
  = (List.length (filter (is_absent urls) properties),
     map (tag_new urls) properties).
Proof.
  intros svc c0 c properties sid url shid df urls Ha Hw Hh Hd Hc.
  unfold export_properties.
  destruct properties as [|p0 rest]; [reflexivity|].
  rewrite Ha, Hw. unfold _handle_new_properties. rewrite Hd.
  unfold mark_against. destruct (Pandas.empty df) eqn:He.
  - rewrite (DiffFacts.column_of_empty _ _ _ Hc He).
    rewrite DiffFacts.mark_all_as_new_ok by exact Hh.
    now rewrite DiffFacts.filter_absent_nil.
  - now rewrite (DiffFacts.mark_new_properties_ok _ _ _ _ _ _ Hc Hh).
Qed.

End MainFacts.

(** X23. The program end to end: with parameters configured, a crawl that
    ends normally with the records [recs], a spreadsheet id, and a run in
    which the sheet is created and written, the rows can be formatted and
    the previous sheet is found with the URLs [previous_urls] in its URL
    column, [main] exports [recs], the count is the number of crawled
    records whose URL is absent from [previous_urls], exactly these
    records are tagged, and the notification is made, with exactly these
    records, if and only if there is one. *)
Theorem main_notifies_unseen_listings :
  forall (fuel : nat) (cfg : configuration) (d : driver)
         (svc : sheets_service) (c_sheet c_diff : clock)
         (kv : string * string) (p : params) (ch : ascii) (id : string)
         (recs : list property_info) (sheet_id : Z) (df : DataFrame)
         (previous_urls : list (option string)),
    params_json cfg = Ok (kv :: p) ->
    spreadsheet_env cfg = Some (String ch id) ->
    snd (SuumoScraper.scrape_properties fuel d (kv :: p)) = Some (Ok recs) ->
    SheetsManager._create_new_sheet svc (String ch id)
      (SheetsManager._get_sheet_name c_sheet) = Ok sheet_id ->
    SheetsManager._write_data svc (String ch id)
      (SheetsManager._get_sheet_name c_sheet) recs
      (SuumoScraper.build_search_url (kv :: p)) = Ok tt ->
    DiffSpec.highlight_succeeds svc (String ch id) sheet_id ->
    SheetsManager._get_previous_data svc (String ch id)
      (SheetsManager.target_sheet c_diff) = Some df ->
    Pandas.column_tolist df SheetsManager.URL_KEY = Ok previous_urls ->
    let unseen := filter (DiffSpec.is_absent previous_urls) recs in
    exists out,
      Main.main fuel cfg d svc c_sheet c_diff
      = Some (MainExported recs out)
      /\ out_count out = List.length unseen
      /\ out_properties out = map (DiffSpec.tag_new previous_urls) recs
      /\ (unseen = [] -> out_notified out = None)
      /\ (unseen <> [] ->
          out_notified out
          = Some (map SheetsManager.set_is_new unseen,
                  ("https://docs.google.com/spreadsheets/d/"
                   ++ String ch id)%string)).
Proof.
  intros fuel cfg d svc c0 c kv p ch id recs shid df urls
         Hp Hs Hr Ha Hw Hh Hd Hc unseen.
  assert (Hu : Forall DiffSpec.untagged recs).
  { destruct (CrawlMore.scrape_loop_records fuel d (kv :: p) 1 [] recs Hr)
      as [added [-> F]].
    eapply Forall_impl; [|exact F]. now intros r [H1 _]. }
  eexists. split.
  - unfold Main.main. rewrite Hp, Hr, Hs. reflexivity.
  - unfold SuumoExport.export_to_sheets.
    rewrite (MainFacts.export_properties_found _ _ _ _ _ _ _ _ _
               Ha Hw Hh Hd Hc).
    fold unseen.
    destruct unseen as [|u us] eqn:Eu.
    + cbn [List.length Nat.ltb Nat.leb out_count out_properties
           out_notified].
      split; [reflexivity|]. split; [reflexivity|].
      split; [reflexivity|]. intros H. now elim H.
    + cbn [List.length Nat.ltb Nat.leb out_count out_properties
           out_notified].
      split; [reflexivity|]. split; [reflexivity|].
      split; [discriminate|]. intros _.
      rewrite (MainFacts.filter_tagged urls recs Hu).
      fold unseen. now rewrite Eu.
Qed.

(** A two-page catalog with three listings, one of them in the morning
    sheet: the evening run notifies the two others. *)
Lemma main_notifies_unseen_listings_witness :
  exists out,
    Main.main 5 MainFixtures.cfg MainFixtures.driver_two_pages
      MainFixtures.service_seen Fixtures.evening Fixtures.evening
    = Some (MainExported
              (SuumoScraper.page_properties MainFixtures.driver_two_pages
                 Fixtures.search 1
               ++ SuumoScraper.page_properties MainFixtures.driver_two_pages
                    Fixtures.search 2)
              out)
    /\ out_count out = 2.
Proof.
  destruct (main_notifies_unseen_listings 5 MainFixtures.cfg
              MainFixtures.driver_two_pages MainFixtures.service_seen
              Fixtures.evening Fixtures.evening
              ("ar", "030") [("bs", "040"); ("cb", "")]
              "i" "d" _ 7 _
              [Some "物件URL"; Some "https://suumo.jp/chintai/jnc_1/"]
              eq_refl eq_refl eq_refl eq_refl eq_refl (fun _ => eq_refl)
              eq_refl eq_refl) as [out [Hm [Hc _]]].
  exists out. split; [exact Hm|]. rewrite Hc. reflexivity.
Defined.

